(** * Superpaper video wallpapers on macOS: a shallow embedding

    The development follows the three Python sources of the repository:

    - [video_wallpaper_window.py]: [SPVideoWallpaperWindow] (one desktop
      level window with its player) and [SPVideoWallpaperManager] (the
      in-process session: spanning or individual start, stop);
    - [video_engine.py]: [VideoEngine] (arity check, static frame cache,
      daemon bookkeeping);
    - [video_daemon.py]: [VideoWallpaperWindow] (the out-of-process player).

    Modelling conventions.

    - Python floats (the [CGFloat] fields of a screen frame, the canvas
      accumulators that start at [float('inf')]) are exact rationals
      extended with the IEEE special values; rounding, overflow and the
      sign of zero are not modelled.  Float division by zero raises
      [ZeroDivisionError], as in Python.
    - Display ids are indices into [NSScreen.screens()], hence naturals.
    - AppKit / AVFoundation objects are records holding the fields the
      Python code reads or writes; a call on [None] raises
      [AttributeError].
    - Side effects are threaded through a state-and-exception monad over a
      [World]: the files on disk, the manager's window list, the engine's
      pid list and a trace of log lines and native calls.  The debugging
      blocks marked [#region agent log] in the sources write to a
      diagnostics file only and are left out. *)

From Stdlib Require Import QArith Qcanon Ascii String.
From stdpp Require Import base numbers list strings gmap.

(** ** Python results and exceptions *)

Inductive exn : Set :=
| ZeroDivisionError
| AttributeError
| IndexError.

Inductive res (A : Type) : Type :=
| Ok (a : A)
| Raise (e : exn).
Arguments Ok {A} a.
Arguments Raise {A} e.

(** ** Floats *)

Module PyFloat.

Inductive pyfloat : Set :=
| NaN
| NInf
| Fin (q : Qc)
| PInf.

Definition zero : pyfloat := Fin 0%Qc.

(** [a < b]; every comparison with NaN is false. *)
Definition flt (a b : pyfloat) : bool :=
  match a, b with
  | NaN, _ | _, NaN => false
  | NInf, NInf => false
  | NInf, _ => true
  | Fin x, Fin y => bool_decide (x < y)%Qc
  | Fin _, PInf => true
  | Fin _, NInf => false
  | PInf, _ => false
  end.

(** The builtin [min(a, b)]: keeps [a] unless [b < a]. *)
Definition py_min (a b : pyfloat) : pyfloat := if flt b a then b else a.

(** The builtin [max(a, b)]: keeps [a] unless [b > a]. *)
Definition py_max (a b : pyfloat) : pyfloat := if flt a b then b else a.

Definition is_neg (a : pyfloat) : bool :=
  match a with
  | NInf => true
  | Fin x => bool_decide (x < 0)%Qc
  | _ => false
  end.

Definition inf_of_sign (neg : bool) : pyfloat := if neg then NInf else PInf.

Definition fneg (a : pyfloat) : pyfloat :=
  match a with
  | NaN => NaN
  | NInf => PInf
  | Fin x => Fin (- x)%Qc
  | PInf => NInf
  end.

Definition fadd (a b : pyfloat) : pyfloat :=
  match a, b with
  | NaN, _ | _, NaN => NaN
  | Fin x, Fin y => Fin (x + y)%Qc
  | PInf, NInf | NInf, PInf => NaN
  | PInf, _ | _, PInf => PInf
  | NInf, _ | _, NInf => NInf
  end.

Definition fsub (a b : pyfloat) : pyfloat := fadd a (fneg b).

Definition fmul (a b : pyfloat) : pyfloat :=
  match a, b with
  | NaN, _ | _, NaN => NaN
  | Fin x, Fin y => Fin (x * y)%Qc
  | Fin x, i | i, Fin x =>
      if decide (x = 0%Qc) then NaN
      else inf_of_sign (xorb (bool_decide (x < 0)%Qc) (is_neg i))
  | i, j => inf_of_sign (xorb (is_neg i) (is_neg j))
  end.

(** [a / b] on floats: a zero divisor raises, whatever [a] is. *)
Definition fdiv (a b : pyfloat) : res pyfloat :=
  match b with
  | NaN => Ok NaN
  | Fin y =>
      if decide (y = 0%Qc) then Raise ZeroDivisionError
      else match a with
           | NaN => Ok NaN
           | Fin x => Ok (Fin (x / y)%Qc)
           | i => Ok (inf_of_sign (xorb (is_neg i) (bool_decide (y < 0)%Qc)))
           end
  | _ =>
      match a with
      | Fin _ => Ok zero
      | _ => Ok NaN
      end
  end.

End PyFloat.
Export PyFloat.

(** ** Paths: [pathlib.Path(p).stem] and [os.path.join] on POSIX *)

Module PyPath.

Definition slash : ascii := "/"%char.
Definition dot : ascii := "."%char.

(** [s.split(sep)] for a one-character separator. *)
Fixpoint split_on (sep : ascii) (s : string) : list string :=
  match s with
  | EmptyString => [EmptyString]
  | String c rest =>
      if Ascii.eqb c sep then EmptyString :: split_on sep rest
      else match split_on sep rest with
           | [] => [String c EmptyString]
           | h :: t => String c h :: t
           end
  end.

(** The path components pathlib keeps: empty and [.] ones are dropped. *)
Definition parts (p : string) : list string :=
  filter (λ s, s ≠ EmptyString ∧ s ≠ String dot EmptyString) (split_on slash p).

(** [Path(p).name] *)
Definition name (p : string) : string := default EmptyString (last (parts p)).

(** [s.rfind('.')] *)
Fixpoint rfind_dot (s : string) : option nat :=
  match s with
  | EmptyString => None
  | String c rest =>
      match rfind_dot rest with
      | Some i => Some (S i)
      | None => if Ascii.eqb c dot then Some 0 else None
      end
  end.

(** [Path(p).stem]: the name up to its last dot, when that dot is neither
    the first nor the last character. *)
Definition stem (p : string) : string :=
  let n := name p in
  match rfind_dot n with
  | Some i =>
      if (0 <? i) && (i <? String.length n - 1) then substring 0 i n else n
  | None => n
  end.

Definition starts_with_slash (s : string) : bool :=
  match s with
  | String c _ => Ascii.eqb c slash
  | EmptyString => false
  end.

Fixpoint ends_with_slash (s : string) : bool :=
  match s with
  | EmptyString => false
  | String c EmptyString => Ascii.eqb c slash
  | String _ rest => ends_with_slash rest
  end.

(** [os.path.join(a, b)] *)
Definition join (a b : string) : string :=
  if starts_with_slash b then b
  else if String.eqb a EmptyString || ends_with_slash a then a +:+ b
  else a +:+ String slash EmptyString +:+ b.

End PyPath.

(** ** Screens, windows, players *)

Record NSRect : Set := {
  origin_x : Qc;
  origin_y : Qc;
  size_width : Qc;
  size_height : Qc
}.

Record NSScreen : Set := {
  screen_number : nat;
  frame : NSRect
}.

(** A normalised crop rectangle [(x, y, width, height)]. *)
Definition CropRect : Set := (pyfloat * pyfloat * pyfloat * pyfloat)%type.

(** A layer frame as handed to [CGRectMake]. *)
Definition CGRect : Set := (pyfloat * pyfloat * pyfloat * pyfloat)%type.

Inductive VideoGravity : Set :=
| AVLayerVideoGravityResizeAspectFill
| AVLayerVideoGravityResizeAspect
| AVLayerVideoGravityResize.

Record NSWindow : Set := {
  win_frame : NSRect;
  win_screen : NSScreen;
  win_masks_to_bounds : bool
}.

Record AVPlayer : Set := {
  item_path : string;
  player_volume : Qc;
  player_muted : bool;
  player_playing : bool
}.

Record AVPlayerLayer : Set := {
  videoGravity : VideoGravity;
  layer_frame : CGRect
}.

(** The attributes of an [SPVideoWallpaperWindow] instance.  [crop_info] is
    [None] until [setupWithVideo...] stores the crop rectangle it was given
    (itself an optional value). *)
Record SPVideoWallpaperWindow : Set := {
  window : option NSWindow;
  player : option AVPlayer;
  player_layer : option AVPlayerLayer;
  looper : option string;
  target_screen : option NSScreen;
  crop_info : option (option CropRect)
}.

(** ** The trace: log lines and native calls *)

Inductive LogLine : Set :=
| ErrMismatch (nvideos ndisplays : nat)
| ErrVideoNotFound (video : string)
| InfoStarted (ndisplays : nat)
| ErrFailedToStart
| InfoUsingCached (static : string)
| InfoGenerating (video : string)
| ErrAssetLoad
| ErrGenerateImage
| ErrImageDestination (out : string)
| InfoGenerated (out : string)
| ErrFinalize
| ErrGenerating
| InfoKilled (pid : nat)
| ErrKilling (pid : nat)
| InfoSentTerminate
| ErrTerminateNotification
| ErrStopping
| InfoSpanning (ndisplays : nat)
| InfoIndividual (ndisplays : nat)
| WarnIndexOutOfRange (display_id nscreens : nat)
| ErrNoScreens
| InfoCanvasSize (w h : pyfloat)
| InfoDisplayCrop (display_id : nat) (crop : CropRect)
| InfoCreatedSpanned (display_id : nat)
| ErrCreateSpanned (display_id : nat)
| WarnIndexUsesMain (display_id : nat)
| InfoStartedOn (display_id : nat)
| ErrCreateIndividual (display_id : nat)
| ErrVideoFileNotFound (video : string)
| InfoLayerTransform (f : CGRect)
| InfoWindowCreated
| ErrSetup
| InfoCleanedUp
| InfoAllStopped.

Inductive Event : Set :=
| Log (l : LogLine)
(** entry of [createWithVideo_screen_volume_scaleMode_cropRect_] *)
| CreateCall (video : string) (screen : option NSScreen) (volume : Qc)
    (scale_mode : string) (crop : option CropRect)
(** entry of [generate_static_frame] *)
| ExtractFrame (video out : string)
| PostNotification (name : string)
(** [os.kill(pid, signal.SIGTERM)] *)
| Kill (pid : nat)
| PlayerPause
| LayerRemove
| WindowClose.

(** ** The platform: what the code reads from macOS *)

Inductive KillResult : Set :=
| Delivered
| ProcessLookupError
| OtherKillError.

(** How far the native pipeline of [generate_static_frame] gets. *)
Inductive FrameOutcome : Set :=
| DurationZero
| NoImage
| NoDestination
| FinalizeFailed
| NativeRaised
| FrameWritten.

Record Platform : Type := {
  (** [NSScreen.screens()] *)
  screens : list NSScreen;
  (** [NSScreen.mainScreen()], nil without any screen *)
  mainScreen : option NSScreen;
  (** some AppKit / AVFoundation call of [setupWithVideo...] raises *)
  native_fault : string → NSScreen → bool;
  frame_outcome : string → FrameOutcome;
  kill_result : nat → KillResult;
  notify_raises : bool;
  (** [NSUserDefaults]: [floatForKey_] is 0.0 and [stringForKey_] nil when unset *)
  defaults_volume : Qc;
  defaults_scale_mode : option string;
  (** [VideoEngine.static_cache_path] *)
  static_cache_path : string
}.

(** ** The world and its monad *)

Record World : Type := {
  (** the paths for which [os.path.exists] holds *)
  files : gset string;
  (** [SPVideoWallpaperManager.sharedManager().windows] *)
  windows : list SPVideoWallpaperWindow;
  (** [VideoEngine.daemon_pids] *)
  daemon_pids : list nat;
  events : list Event
}.

Definition set_files (f : gset string) (w : World) : World :=
  {| files := f; windows := windows w; daemon_pids := daemon_pids w; events := events w |}.
Definition set_windows (ws : list SPVideoWallpaperWindow) (w : World) : World :=
  {| files := files w; windows := ws; daemon_pids := daemon_pids w; events := events w |}.
Definition set_daemon_pids (ps : list nat) (w : World) : World :=
  {| files := files w; windows := windows w; daemon_pids := ps; events := events w |}.
Definition add_event (e : Event) (w : World) : World :=
  {| files := files w; windows := windows w; daemon_pids := daemon_pids w;
     events := events w ++ [e] |}.

Definition M (A : Type) : Type := World → res A * World.

Definition ret {A} (a : A) : M A := λ w, (Ok a, w).

Definition bind {A B} (m : M A) (k : A → M B) : M B :=
  λ w, match m w with
       | (Ok a, w') => k a w'
       | (Raise e, w') => (Raise e, w')
       end.

Definition raise {A} (e : exn) : M A := λ w, (Raise e, w).

(** [try: m except Exception: h] *)
Definition try_except {A} (m : M A) (h : exn → M A) : M A :=
  λ w, match m w with
       | (Ok a, w') => (Ok a, w')
       | (Raise e, w') => h e w'
       end.

Definition lift {A} (r : res A) : M A := λ w, (r, w).
Definition gets {A} (f : World → A) : M A := λ w, (Ok (f w), w).
Definition modify (f : World → World) : M unit := λ w, (Ok tt, f w).
Definition emit (e : Event) : M unit := modify (add_event e).
Definition log (l : LogLine) : M unit := emit (Log l).

Declare Scope py_scope.
Delimit Scope py_scope with py.
Notation "x <- m ;; k" := (bind m (λ x, k))
  (at level 100, m at next level, right associativity) : py_scope.
Notation "m ;; k" := (bind m (λ _, k))
  (at level 100, right associativity) : py_scope.
Local Open Scope py_scope.

(** [os.path.exists] *)
Definition path_exists (p : string) : M bool := gets (λ w, bool_decide (p ∈ files w)).

(** ** [SPVideoWallpaperWindow] *)

(** [init]: every attribute is [None]. *)
Definition init_window : SPVideoWallpaperWindow :=
  {| window := None; player := None; player_layer := None; looper := None;
     target_screen := None; crop_info := None |}.

(** Truth value of an attribute that holds an Objective-C object or [None]. *)
Definition truthy {A} (o : option A) : bool :=
  match o with
  | Some _ => true
  | None => false
  end.

(** The spanning branch of [setupWithVideo...]: the layer is scaled to the
    whole canvas and shifted so that this window shows its own part. *)
Definition spanned_layer_frame (window_width window_height : pyfloat)
    (crop_rect : CropRect) : res CGRect :=
  let '(x_norm, y_norm, width_norm, height_norm) := crop_rect in
  match (if flt zero width_norm then fdiv window_width width_norm
         else Ok window_width) with
  | Raise e => Raise e
  | Ok canvas_width =>
      match (if flt zero height_norm then fdiv window_height height_norm
             else Ok window_height) with
      | Raise e => Raise e
      | Ok canvas_height =>
          let offset_x := fmul (fneg x_norm) canvas_width in
          let offset_y := fmul (fneg y_norm) canvas_height in
          Ok (offset_x, offset_y, canvas_width, canvas_height)
      end
  end.

(** [setupWithVideo_screen_volume_scaleMode_cropRect_].  The result is
    [Some self] when the method returns [True] and [None] when it returns
    [False]; in the latter case the factory drops the instance, so its
    half-built attributes are not kept.  Whatever is raised inside the body
    is caught by the method's own [try]. *)
Definition setupWithVideo_screen_volume_scaleMode_cropRect_ (pf : Platform)
    (self : SPVideoWallpaperWindow) (video_path : string)
    (screen : option NSScreen) (volume : Qc) (scale_mode : string)
    (crop_rect : option CropRect) : M (option SPVideoWallpaperWindow) :=
  present <- path_exists video_path ;;
  if negb present then
    (log (ErrVideoFileNotFound video_path) ;; ret None)
  else
    match screen with
    | None =>
        (* [screen.frame()] on nil *)
        (log ErrSetup ;; ret None)
    | Some scr =>
        if native_fault pf video_path scr then (log ErrSetup ;; ret None)
        else
          let visible_frame := frame scr in
          let new_player :=
            {| item_path := video_path; player_volume := volume;
               player_muted := false; player_playing := true |} in
          (* the gravity is set before the crop rectangle is looked at *)
          let gravity := AVLayerVideoGravityResizeAspectFill in
          let window_width := Fin (size_width visible_frame) in
          let window_height := Fin (size_height visible_frame) in
          match crop_rect with
          | Some crop =>
              match spanned_layer_frame window_width window_height crop with
              | Raise _ => (log ErrSetup ;; ret None)
              | Ok layer =>
                  log (InfoLayerTransform layer) ;;
                  log InfoWindowCreated ;;
                  ret (Some
                    {| window := Some {| win_frame := visible_frame; win_screen := scr;
                                         win_masks_to_bounds := true |};
                       player := Some new_player;
                       player_layer := Some {| videoGravity := gravity;
                                               layer_frame := layer |};
                       looper := Some video_path;
                       target_screen := Some scr;
                       crop_info := Some crop_rect |})
              end
          | None =>
              log InfoWindowCreated ;;
              ret (Some
                {| window := Some {| win_frame := visible_frame; win_screen := scr;
                                     win_masks_to_bounds := false |};
                   player := Some new_player;
                   player_layer :=
                     Some {| videoGravity := gravity;
                             layer_frame := (zero, zero, window_width, window_height) |};
                   looper := Some video_path;
                   target_screen := Some scr;
                   crop_info := Some crop_rect |})
          end
    end.

(** [createWithVideo_screen_volume_scaleMode_cropRect_] *)
Definition createWithVideo_screen_volume_scaleMode_cropRect_ (pf : Platform)
    (video_path : string) (screen : option NSScreen) (volume : Qc)
    (scale_mode : string) (crop_rect : option CropRect)
    : M (option SPVideoWallpaperWindow) :=
  emit (CreateCall video_path screen volume scale_mode crop_rect) ;;
  setupWithVideo_screen_volume_scaleMode_cropRect_ pf init_window
    video_path screen volume scale_mode crop_rect.

(** Method calls on attributes; on [None] they raise. *)
Definition player_pause (p : option AVPlayer) : M (option AVPlayer) :=
  match p with
  | Some pl =>
      emit PlayerPause ;;
      ret (Some {| item_path := item_path pl; player_volume := player_volume pl;
                   player_muted := player_muted pl; player_playing := false |})
  | None => raise AttributeError
  end.

Definition layer_removeFromSuperlayer (l : option AVPlayerLayer) : M unit :=
  match l with
  | Some _ => emit LayerRemove
  | None => raise AttributeError
  end.

Definition window_close (w : option NSWindow) : M unit :=
  match w with
  | Some _ => emit WindowClose
  | None => raise AttributeError
  end.

(** [cleanup]: returns the instance as the method leaves it. *)
Definition cleanup (self : SPVideoWallpaperWindow) : M SPVideoWallpaperWindow :=
  paused <- (if truthy (player self) then player_pause (player self)
             else ret (player self)) ;;
  (if truthy (player_layer self) && truthy (window self)
   then layer_removeFromSuperlayer (player_layer self) else ret tt) ;;
  win <- (if truthy (window self) then (window_close (window self) ;; ret None)
          else ret (window self)) ;;
  log InfoCleanedUp ;;
  ret {| window := win; player := None; player_layer := None; looper := None;
         target_screen := target_screen self; crop_info := crop_info self |}.

(** ** [SPVideoWallpaperManager] *)

(** The loop of [stopAllWallpapers]; [i] is the position of the head of
    [todo] in [self.windows], whose object [cleanup] mutates in place. *)
Fixpoint cleanup_windows (i : nat) (todo : list SPVideoWallpaperWindow) : M unit :=
  match todo with
  | [] => ret tt
  | w :: rest =>
      w' <- cleanup w ;;
      modify (λ st, set_windows (<[i := w']> (windows st)) st) ;;
      cleanup_windows (S i) rest
  end.

Definition stopAllWallpapers : M unit :=
  ws <- gets windows ;;
  cleanup_windows 0 ws ;;
  modify (set_windows []) ;;
  log InfoAllStopped.

(** [self.windows.append(window)] *)
Definition append_window (w : SPVideoWallpaperWindow) : M unit :=
  modify (λ st, set_windows (windows st ++ [w]) st).

(** The local variables of the first loop of [__start_spanned_wallpaper]. *)
Record SpanScan : Set := {
  sel : list (NSScreen * nat);
  min_x : pyfloat;
  min_y : pyfloat;
  max_x : pyfloat;
  max_y : pyfloat
}.

Definition span_scan_init : SpanScan :=
  {| sel := []; min_x := PInf; min_y := PInf; max_x := NInf; max_y := NInf |}.

(** One screen added to the selection and to the bounding box. *)
Definition span_scan_add (screen : NSScreen) (display_id : nat) (a : SpanScan) : SpanScan :=
  let fr := frame screen in
  {| sel := sel a ++ [(screen, display_id)];
     min_x := py_min (min_x a) (Fin (origin_x fr));
     min_y := py_min (min_y a) (Fin (origin_y fr));
     max_x := py_max (max_x a) (Fin (origin_x fr + size_width fr)%Qc);
     max_y := py_max (max_y a) (Fin (origin_y fr + size_height fr)%Qc) |}.

Fixpoint span_scan (pf : Platform) (display_ids : list nat) (a : SpanScan) : M SpanScan :=
  match display_ids with
  | [] => ret a
  | display_id :: rest =>
      let all_ns_screens := screens pf in
      if length all_ns_screens <=? display_id then
        (log (WarnIndexOutOfRange display_id (length all_ns_screens)) ;;
         span_scan pf rest a)
      else
        match all_ns_screens !! display_id with
        | Some screen => span_scan pf rest (span_scan_add screen display_id a)
        | None => raise IndexError
        end
  end.

(** The four divisions of the second loop, in source order. *)
Definition span_crop (fr : NSRect) (mnx mny canvas_width canvas_height : pyfloat)
    : res CropRect :=
  match fdiv (fsub (Fin (origin_x fr)) mnx) canvas_width with
  | Raise e => Raise e
  | Ok crop_x =>
      match fdiv (fsub (Fin (origin_y fr)) mny) canvas_height with
      | Raise e => Raise e
      | Ok crop_y =>
          match fdiv (Fin (size_width fr)) canvas_width with
          | Raise e => Raise e
          | Ok crop_width =>
              match fdiv (Fin (size_height fr)) canvas_height with
              | Raise e => Raise e
              | Ok crop_height => Ok (crop_x, crop_y, crop_width, crop_height)
              end
          end
      end
  end.

(** The second loop of [__start_spanned_wallpaper]. *)
Fixpoint span_create (pf : Platform) (video_path : string) (volume : Qc)
    (scale_mode : string) (mnx mny canvas_width canvas_height : pyfloat)
    (todo : list (NSScreen * nat)) (success_count : nat) : M nat :=
  match todo with
  | [] => ret success_count
  | (screen, display_id) :: rest =>
      crop_rect <- lift (span_crop (frame screen) mnx mny canvas_width canvas_height) ;;
      log (InfoDisplayCrop display_id crop_rect) ;;
      created <- createWithVideo_screen_volume_scaleMode_cropRect_ pf
                   video_path (Some screen) volume scale_mode (Some crop_rect) ;;
      match created with
      | Some w =>
          append_window w ;;
          log (InfoCreatedSpanned display_id) ;;
          span_create pf video_path volume scale_mode mnx mny
            canvas_width canvas_height rest (S success_count)
      | None =>
          log (ErrCreateSpanned display_id) ;;
          span_create pf video_path volume scale_mode mnx mny
            canvas_width canvas_height rest success_count
      end
  end.

(** [__start_spanned_wallpaper] *)
Definition start_spanned_wallpaper (pf : Platform) (video_path : string)
    (display_ids : list nat) (volume : Qc) (scale_mode : string) : M bool :=
  a <- span_scan pf display_ids span_scan_init ;;
  match sel a with
  | [] => (log ErrNoScreens ;; ret false)
  | _ :: _ =>
      let canvas_width := fsub (max_x a) (min_x a) in
      let canvas_height := fsub (max_y a) (min_y a) in
      log (InfoCanvasSize canvas_width canvas_height) ;;
      success_count <- span_create pf video_path volume scale_mode
                         (min_x a) (min_y a) canvas_width canvas_height (sel a) 0 ;;
      ret (0 <? success_count)
  end.

(** The loop of [__start_individual_wallpapers] over
    [zip(video_paths, display_ids)]. *)
Fixpoint individual_create (pf : Platform) (volume : Qc) (scale_mode : string)
    (todo : list (string * nat)) (success_count : nat) : M nat :=
  match todo with
  | [] => ret success_count
  | (video_path, display_id) :: rest =>
      let all_ns_screens := screens pf in
      screen <- (if length all_ns_screens <=? display_id then
                   (log (WarnIndexUsesMain display_id) ;; ret (mainScreen pf))
                 else
                   match all_ns_screens !! display_id with
                   | Some s => ret (Some s)
                   | None => raise IndexError
                   end) ;;
      created <- createWithVideo_screen_volume_scaleMode_cropRect_ pf
                   video_path screen volume scale_mode None ;;
      match created with
      | Some w =>
          append_window w ;;
          log (InfoStartedOn display_id) ;;
          individual_create pf volume scale_mode rest (S success_count)
      | None =>
          log (ErrCreateIndividual display_id) ;;
          individual_create pf volume scale_mode rest success_count
      end
  end.

(** [__start_individual_wallpapers] *)
Definition start_individual_wallpapers (pf : Platform) (video_paths : list string)
    (display_ids : list nat) (volume : Qc) (scale_mode : string) : M bool :=
  success_count <- individual_create pf volume scale_mode
                     (zip video_paths display_ids) 0 ;;
  ret (0 <? success_count).

(** [len(set(video_paths)) == 1 and len(video_paths) > 1] *)
Definition is_spanning (video_paths : list string) : bool :=
  (size (list_to_set video_paths : gset string) =? 1) && (1 <? length video_paths).

(** [startWallpaperWithPaths_displayIDs_volume_scaleMode_] *)
Definition startWallpaperWithPaths_displayIDs_volume_scaleMode_ (pf : Platform)
    (video_paths : list string) (display_ids : list nat) (volume : Qc)
    (scale_mode : string) : M bool :=
  stopAllWallpapers ;;
  if is_spanning video_paths then
    log (InfoSpanning (length display_ids)) ;;
    match video_paths with
    | first :: _ => start_spanned_wallpaper pf first display_ids volume scale_mode
    | [] => raise IndexError
    end
  else
    (log (InfoIndividual (length display_ids)) ;;
     start_individual_wallpapers pf video_paths display_ids volume scale_mode).

(** ** [VideoEngine] *)

Definition default_volume : Qc := 0%Qc.
Definition default_scale_mode : string := "fill".

(** [stop_video_wallpapers] *)
Definition stop_video_wallpapers : M unit :=
  try_except stopAllWallpapers (λ _, log ErrStopping).

(** [generate_static_frame].  The native pipeline is summarised by
    [frame_outcome]; the PNG exists on disk once the image destination has
    been finalised. *)
Definition generate_static_frame (pf : Platform) (video_path output_path : string)
    : M bool :=
  emit (ExtractFrame video_path output_path) ;;
  match frame_outcome pf video_path with
  | DurationZero => (log ErrAssetLoad ;; ret false)
  | NoImage => (log ErrGenerateImage ;; ret false)
  | NoDestination => (log (ErrImageDestination output_path) ;; ret false)
  | FinalizeFailed => (log ErrFinalize ;; ret false)
  | NativeRaised => (log ErrGenerating ;; ret false)
  | FrameWritten =>
      modify (λ st, set_files ({[output_path]} ∪ files st) st) ;;
      log (InfoGenerated output_path) ;;
      ret true
  end.

(** [get_or_generate_static_frame] *)
Definition get_or_generate_static_frame (pf : Platform) (video_path : string)
    : M string :=
  let video_name := PyPath.stem video_path in
  let static_path := PyPath.join (static_cache_path pf) (video_name +:+ ".png") in
  cached <- path_exists static_path ;;
  if cached then
    (log (InfoUsingCached static_path) ;; ret static_path)
  else
    (log (InfoGenerating video_path) ;;
     success <- generate_static_frame pf video_path static_path ;;
     if success then ret static_path else ret EmptyString).

(** The loop "generate static frames for all videos" of
    [start_video_wallpaper]; [false] means that the method returned from
    inside the loop. *)
Fixpoint static_frames_loop (pf : Platform) (video_paths : list string) : M bool :=
  match video_paths with
  | [] => ret true
  | video_path :: rest =>
      present <- path_exists video_path ;;
      if negb present then
        (log (ErrVideoNotFound video_path) ;; ret false)
      else
        (get_or_generate_static_frame pf video_path ;;
         static_frames_loop pf rest)
  end.

(** [start_video_wallpaper] *)
Definition start_video_wallpaper (pf : Platform) (video_paths : list string)
    (display_ids : list nat) : M unit :=
  if negb (length video_paths =? length display_ids) then
    log (ErrMismatch (length video_paths) (length display_ids))
  else
    (stop_video_wallpapers ;;
     let volume :=
       if decide (defaults_volume pf = 0%Qc) then default_volume
       else defaults_volume pf in
     let scale_mode_str :=
       match defaults_scale_mode pf with
       | Some s => if String.eqb s EmptyString then default_scale_mode else s
       | None => default_scale_mode
       end in
     continue <- static_frames_loop pf video_paths ;;
     if negb continue then ret tt
     else
       (success <- startWallpaperWithPaths_displayIDs_volume_scaleMode_ pf
                     video_paths display_ids volume scale_mode_str ;;
        if success then log (InfoStarted (length display_ids))
        else log ErrFailedToStart)).

(** [send_terminate_notification] *)
Definition send_terminate_notification (pf : Platform) : M unit :=
  emit (PostNotification "com.superpaper.video.terminate") ;;
  if notify_raises pf then log ErrTerminateNotification
  else log InfoSentTerminate.

(** The loop of [kill_all_daemons]. *)
Fixpoint kill_pids (pf : Platform) (pids : list nat) : M unit :=
  match pids with
  | [] => ret tt
  | pid :: rest =>
      emit (Kill pid) ;;
      match kill_result pf pid with
      | Delivered => log (InfoKilled pid)
      | ProcessLookupError => ret tt
      | OtherKillError => log (ErrKilling pid)
      end ;;
      kill_pids pf rest
  end.

(** [kill_all_daemons] *)
Definition kill_all_daemons (pf : Platform) : M unit :=
  send_terminate_notification pf ;;
  pids <- gets daemon_pids ;;
  kill_pids pf pids ;;
  modify (set_daemon_pids []).

(** ** The daemon's [VideoWallpaperWindow] *)

Record VideoWallpaperWindow : Set := {
  video_path : string;
  static_path : string;
  current_volume : Qc;
  scale_mode : string;
  daemon_player : option AVPlayer;
  daemon_player_layer : option AVPlayerLayer
}.

(** [setupVideoPlayer]: the layer fills the content view of the window,
    whose frame is the screen's. *)
Definition setupVideoPlayer (fr : NSRect) (self : VideoWallpaperWindow)
    : VideoWallpaperWindow :=
  let new_player :=
    {| item_path := video_path self; player_volume := current_volume self;
       player_muted := false; player_playing := false |} in
  let gravity :=
    if String.eqb (scale_mode self) "fill" then AVLayerVideoGravityResizeAspectFill
    else if String.eqb (scale_mode self) "fit" then AVLayerVideoGravityResizeAspect
    else AVLayerVideoGravityResize in
  {| video_path := video_path self; static_path := static_path self;
     current_volume := current_volume self; scale_mode := scale_mode self;
     daemon_player := Some new_player;
     daemon_player_layer :=
       Some {| videoGravity := gravity;
               layer_frame := (zero, zero, Fin (size_width fr), Fin (size_height fr)) |} |}.

(** ** Running a computation *)

Definition run {A} (m : M A) (w : World) : res A * World := m w.

Definition result {A} (m : M A) (w : World) : res A := fst (m w).
Definition final {A} (m : M A) (w : World) : World := snd (m w).


(** ** Decidable equality, to compare computed values *)

#[global] Instance exn_eq_dec : EqDecision exn.
Proof. solve_decision. Defined.
#[global] Instance res_eq_dec {A} `{EqDecision A} : EqDecision (res A).
Proof. solve_decision. Defined.
#[global] Instance pyfloat_eq_dec : EqDecision pyfloat.
Proof. solve_decision. Defined.
#[global] Instance NSRect_eq_dec : EqDecision NSRect.
Proof. solve_decision. Defined.
#[global] Instance NSScreen_eq_dec : EqDecision NSScreen.
Proof. solve_decision. Defined.
#[global] Instance VideoGravity_eq_dec : EqDecision VideoGravity.
Proof. solve_decision. Defined.
#[global] Instance NSWindow_eq_dec : EqDecision NSWindow.
Proof. solve_decision. Defined.
#[global] Instance AVPlayer_eq_dec : EqDecision AVPlayer.
Proof. solve_decision. Defined.
#[global] Instance AVPlayerLayer_eq_dec : EqDecision AVPlayerLayer.
Proof. solve_decision. Defined.
#[global] Instance SPVideoWallpaperWindow_eq_dec : EqDecision SPVideoWallpaperWindow.
Proof. solve_decision. Defined.
#[global] Instance LogLine_eq_dec : EqDecision LogLine.
Proof. solve_decision. Defined.
#[global] Instance Event_eq_dec : EqDecision Event.
Proof. solve_decision. Defined.
#[global] Instance World_eq_dec : EqDecision World.
Proof. solve_decision. Defined.

(** ** Sample data *)

Module Sample.

Definition rect (x y w h : Z) : NSRect :=
  {| origin_x := Qc_of_Z x; origin_y := Qc_of_Z y;
     size_width := Qc_of_Z w; size_height := Qc_of_Z h |}.

Definition left_screen : NSScreen :=
  {| screen_number := 1; frame := rect 0 0 1920 1080 |}.
Definition right_screen : NSScreen :=
  {| screen_number := 2; frame := rect 1920 0 1920 1080 |}.
Definition upper_screen : NSScreen :=
  {| screen_number := 3; frame := rect 0 1080 2560 1440 |}.
Definition empty_screen : NSScreen :=
  {| screen_number := 4; frame := rect 0 0 0 0 |}.

Definition platform (scrs : list NSScreen) : Platform :=
  {| screens := scrs;
     mainScreen := head scrs;
     native_fault := λ _ _, false;
     frame_outcome := λ _, FrameWritten;
     kill_result := λ pid, if Nat.even pid then Delivered else ProcessLookupError;
     notify_raises := false;
     defaults_volume := 0%Qc;
     defaults_scale_mode := Some "fit"%string;
     static_cache_path := "/Users/u/Library/Caches/Superpaper/wallpapers" |}.

Definition two_displays : Platform := platform [left_screen; right_screen].
Definition three_displays : Platform :=
  platform [left_screen; right_screen; upper_screen].
Definition degenerate_display : Platform := platform [empty_screen].

Definition sea : string := "/Users/u/Movies/sea.mp4".
Definition sky : string := "/Users/u/Movies/sky.mov".
Definition gone : string := "/Users/u/Movies/gone.mp4".

(** Both videos are on disk, [gone] is not; nothing is cached or running. *)
Definition fresh : World :=
  {| files := {[sea; sky]}; windows := []; daemon_pids := []; events := [] |}.

(** As [fresh], with the still frame of [sea] already in the cache. *)
Definition warm : World :=
  {| files := {[sea; sky;
                "/Users/u/Library/Caches/Superpaper/wallpapers/sea.png"%string]};
     windows := []; daemon_pids := []; events := [] |}.

End Sample.

(** ** Vocabulary of the statements *)

Definition add_events (l : list Event) (w : World) : World :=
  {| files := files w; windows := windows w; daemon_pids := daemon_pids w;
     events := events w ++ l |}.

Definition is_signal (e : Event) : bool :=
  match e with
  | PostNotification _ | Kill _ => true
  | _ => false
  end.

Definition is_native (e : Event) : bool :=
  match e with
  | Log _ | CreateCall _ _ _ _ _ => false
  | _ => true
  end.

Definition is_create_call (e : Event) : bool :=
  match e with
  | CreateCall _ _ _ _ _ => true
  | _ => false
  end.

Definition is_extract (e : Event) : bool :=
  match e with
  | ExtractFrame _ _ => true
  | _ => false
  end.

(** What one tracked pid adds to the trace of [kill_all_daemons]. *)
Definition kill_trace (pf : Platform) (pid : nat) : list Event :=
  Kill pid ::
  match kill_result pf pid with
  | Delivered => [Log (InfoKilled pid)]
  | ProcessLookupError => []
  | OtherKillError => [Log (ErrKilling pid)]
  end.

(** The in-range displays of a request, in request order, as the first
    loop of [__start_spanned_wallpaper] collects them. *)
Definition selected (pf : Platform) (display_ids : list nat) : list (NSScreen * nat) :=
  omap (λ id, (λ s, (s, id)) <$> screens pf !! id) display_ids.

(** The warnings of that loop, one per index out of range. *)
Definition range_warnings (pf : Platform) (display_ids : list nat) : list Event :=
  omap (λ id, if length (screens pf) <=? id
              then Some (Log (WarnIndexOutOfRange id (length (screens pf))))
              else None) display_ids.

(** The accumulators after the screens of [l] have been added to [a]. *)
Definition scan_all (l : list (NSScreen * nat)) (a : SpanScan) : SpanScan :=
  foldl (λ acc p, span_scan_add p.1 p.2 acc) a l.

Definition left_edge (p : NSScreen * nat) : Qc := origin_x (frame p.1).
Definition bottom_edge (p : NSScreen * nat) : Qc := origin_y (frame p.1).
Definition right_edge (p : NSScreen * nat) : Qc :=
  (origin_x (frame p.1) + size_width (frame p.1))%Qc.
Definition top_edge (p : NSScreen * nat) : Qc :=
  (origin_y (frame p.1) + size_height (frame p.1))%Qc.


(** Folding the builtin [min] / [max] over finite values. *)
Definition fold_min (a : pyfloat) (l : list Qc) : pyfloat :=
  foldl (λ acc x, py_min acc (Fin x)) a l.
Definition fold_max (a : pyfloat) (l : list Qc) : pyfloat :=
  foldl (λ acc x, py_max acc (Fin x)) a l.



(** The scale-mode table of the specification: [fill] covers, [fit]
    contains, anything else stretches. *)
Definition spec_gravity (mode : string) : VideoGravity :=
  if decide (mode = "fill"%string) then AVLayerVideoGravityResizeAspectFill
  else if decide (mode = "fit"%string) then AVLayerVideoGravityResizeAspect
  else AVLayerVideoGravityResize.

(** A world that holds the given files and nothing else. *)
Definition world_of_files (fs : gset string) : World :=
  {| files := fs; windows := []; daemon_pids := []; events := [] |}.

(** What the window factory returns, and what it adds to the trace, when
    the files on disk are [fs]: both are read off a run of the factory. *)
Definition create_outcome (pf : Platform) (fs : gset string) (video : string)
    (screen : option NSScreen) (volume : Qc) (mode : string)
    (crop : option CropRect) : option SPVideoWallpaperWindow :=
  match result (createWithVideo_screen_volume_scaleMode_cropRect_ pf video screen
                  volume mode crop) (world_of_files fs) with
  | Ok r => r
  | Raise _ => None
  end.

Definition create_events (pf : Platform) (fs : gset string) (video : string)
    (screen : option NSScreen) (volume : Qc) (mode : string)
    (crop : option CropRect) : list Event :=
  events (final (createWithVideo_screen_volume_scaleMode_cropRect_ pf video screen
                   volume mode crop) (world_of_files fs)).

(** The screen the individual start picks for a display index. *)
Definition screen_for (pf : Platform) (display_id : nat) : option NSScreen :=
  if length (screens pf) <=? display_id then mainScreen pf
  else screens pf !! display_id.

(** A world with its window list replaced and its trace extended. *)
Definition world_with (ws : list SPVideoWallpaperWindow) (tr : list Event)
    (w : World) : World :=
  {| files := files w; windows := ws; daemon_pids := daemon_pids w;
     events := events w ++ tr |}.

(** The windows the individual start appends, one per pair whose window
    could be built. *)
Definition individual_windows (pf : Platform) (fs : gset string) (volume : Qc)
    (mode : string) (todo : list (string * nat)) : list SPVideoWallpaperWindow :=
  omap (λ p, create_outcome pf fs p.1 (screen_for pf p.2) volume mode None) todo.

(** The windows the spanned start appends when [crop_of] gives the crop
    rectangle of a frame. *)
Definition spanned_windows (pf : Platform) (fs : gset string) (video : string)
    (volume : Qc) (mode : string) (crop_of : NSRect → CropRect)
    (todo : list (NSScreen * nat)) : list SPVideoWallpaperWindow :=
  omap (λ p, create_outcome pf fs video (Some p.1) volume mode
               (Some (crop_of (frame p.1)))) todo.

(** A window factory call without a crop rectangle. *)
Definition is_cropless_call (e : Event) : bool :=
  match e with
  | CreateCall _ _ _ _ None => true
  | _ => false
  end.

(** The accumulators of the spanned start once its first loop is over. *)
Definition spanned_canvas (pf : Platform) (display_ids : list nat) : SpanScan :=
  scan_all (selected pf display_ids) span_scan_init.

Definition canvas_width_of (a : SpanScan) : pyfloat := fsub (max_x a) (min_x a).
Definition canvas_height_of (a : SpanScan) : pyfloat := fsub (max_y a) (min_y a).

(** The cache entry of a video: [<cache dir>/<stem>.png]. *)
Definition static_path_of (pf : Platform) (video : string) : string :=
  PyPath.join (static_cache_path pf) (PyPath.stem video +:+ ".png").

(** A world with its files replaced and its trace extended. *)
Definition world_files (fs : gset string) (tr : list Event) (w : World) : World :=
  {| files := fs; windows := windows w; daemon_pids := daemon_pids w;
     events := events w ++ tr |}.

(** Two calls of [get_or_generate_static_frame] in a row. *)
Definition get_twice (pf : Platform) (video : string) : M (string * string) :=
  first <- get_or_generate_static_frame pf video ;;
  second <- get_or_generate_static_frame pf video ;;
  ret (first, second).

(** Native calls of [cleanup], told apart. *)
Definition is_close (e : Event) : bool :=
  match e with
  | WindowClose => true
  | _ => false
  end.

Definition is_pause (e : Event) : bool :=
  match e with
  | PlayerPause => true
  | _ => false
  end.

(** The crop rectangle of a frame on a canvas whose extents are not zero. *)
Definition crop_on (mnx mny cw ch : pyfloat) (fr : NSRect) : CropRect :=
  match span_crop fr mnx mny cw ch with
  | Ok c => c
  | Raise _ => (zero, zero, zero, zero)
  end.

(** What [startWallpaperWithPaths_displayIDs_volume_scaleMode_] returns and
    the session it leaves, as a function of the request and of the files on
    disk. *)
Definition manager_outcome (pf : Platform) (fs : gset string)
    (video_paths : list string) (display_ids : list nat) (volume : Qc)
    (mode : string) : res bool * list SPVideoWallpaperWindow :=
  if is_spanning video_paths then
    match video_paths with
    | [] => (Raise IndexError, [])
    | first :: _ =>
        let a := spanned_canvas pf display_ids in
        match selected pf display_ids with
        | [] => (Ok false, [])
        | _ :: _ =>
            if decide (canvas_width_of a = zero ∨ canvas_height_of a = zero)
            then (Raise ZeroDivisionError, [])
            else
              let ws := spanned_windows pf fs first volume mode
                          (crop_on (min_x a) (min_y a) (canvas_width_of a)
                             (canvas_height_of a))
                          (selected pf display_ids) in
              (Ok (0 <? length ws), ws)
        end
    end
  else
    let ws := individual_windows pf fs volume mode (zip video_paths display_ids) in
    (Ok (0 <? length ws), ws).

(** The same request, started twice in a row. *)
Definition start_twice (pf : Platform) (video_paths : list string)
    (display_ids : list nat) (volume : Qc) (mode : string) : M bool :=
  startWallpaperWithPaths_displayIDs_volume_scaleMode_ pf video_paths display_ids
    volume mode ;;
  startWallpaperWithPaths_displayIDs_volume_scaleMode_ pf video_paths display_ids
    volume mode.

(** The volume and the scale mode [start_video_wallpaper] hands to the
    manager: the stored value, or the engine's default when the stored value
    is unset (or zero, or the empty string). *)
Definition engine_volume (pf : Platform) : Qc :=
  if decide (defaults_volume pf = 0%Qc) then default_volume else defaults_volume pf.

Definition engine_scale_mode (pf : Platform) : string :=
  match defaults_scale_mode pf with
  | Some s => if String.eqb s EmptyString then default_scale_mode else s
  | None => default_scale_mode
  end.

(** The cache entries of a list of videos. *)
Definition static_paths (pf : Platform) (video_paths : list string) : gset string :=
  list_to_set (static_path_of pf <$> video_paths).

(** What [start_video_wallpaper] raises, if anything, given the manager's
    result. *)
Definition engine_result (r : res bool) : res unit :=
  match r with
  | Ok _ => Ok tt
  | Raise e => Raise e
  end.

(** Whether a file name holds a path separator. *)
Fixpoint has_slash (s : string) : bool :=
  match s with
  | EmptyString => false
  | String c rest => Ascii.eqb c PyPath.slash || has_slash rest
  end.

(** [kill_all_daemons] called twice in a row. *)
Definition kill_twice (pf : Platform) : M unit :=
  kill_all_daemons pf ;; kill_all_daemons pf.

(** The screen search of the daemon's [main]: the first screen of
    [NSScreen.screens()] whose [NSScreenNumber] is the display id given on
    the command line, and the main screen when there is none. *)
Fixpoint find_screen_by_number (display_id : nat) (scrs : list NSScreen)
    : option NSScreen :=
  match scrs with
  | [] => None
  | screen :: rest =>
      if screen_number screen =? display_id then Some screen
      else find_screen_by_number display_id rest
  end.

Definition daemon_target_screen (pf : Platform) (display_id : nat) : option NSScreen :=
  match find_screen_by_number display_id (screens pf) with
  | Some screen => Some screen
  | None => mainScreen pf
  end.

(** More sample data. *)
Module Fixture.

(** A platform on which no video yields a frame. *)
Definition frameless : Platform :=
  {| screens := [Sample.left_screen];
     mainScreen := Some Sample.left_screen;
     native_fault := λ _ _, false;
     frame_outcome := λ _, NoImage;
     kill_result := λ _, ProcessLookupError;
     notify_raises := true;
     defaults_volume := 0%Qc;
     defaults_scale_mode := None;
     static_cache_path := "/Users/u/Library/Caches/Superpaper/wallpapers" |}.

End Fixture.


(** A start of the manager followed by [stopAllWallpapers]. *)
Definition start_then_stop (pf : Platform) (video_paths : list string)
    (display_ids : list nat) (volume : Qc) (mode : string) : M unit :=
  startWallpaperWithPaths_displayIDs_volume_scaleMode_ pf video_paths display_ids
    volume mode ;;
  stopAllWallpapers.

(** * Properties *)

(** ** The monad *)

Lemma run_bind {A B} (m : M A) (k : A → M B) w :
  run (bind m k) w =
  match run m w with
  | (Ok a, w') => run (k a) w'
  | (Raise e, w') => (Raise e, w')
  end.
Proof. reflexivity. Qed.

Lemma add_events_nil w : add_events [] w = w.
Proof. destruct w; unfold add_events; simpl. by rewrite app_nil_r. Qed.

Lemma add_events_app l1 l2 w : add_events l2 (add_events l1 w) = add_events (l1 ++ l2) w.
Proof. unfold add_events; simpl. by rewrite app_assoc. Qed.

Lemma add_event_events e w : add_event e w = add_events [e] w.
Proof. reflexivity. Qed.

Lemma run_ret {A} (a : A) w : run (ret a) w = (Ok a, w).
Proof. reflexivity. Qed.

Lemma run_emit e w : run (emit e) w = (Ok tt, add_events [e] w).
Proof. reflexivity. Qed.

Lemma run_log l w : run (log l) w = (Ok tt, add_events [Log l] w).
Proof. reflexivity. Qed.

Lemma run_gets {A} (f : World → A) w : run (gets f) w = (Ok (f w), w).
Proof. reflexivity. Qed.

Lemma run_modify f w : run (modify f) w = (Ok tt, f w).
Proof. reflexivity. Qed.

Lemma run_raise {A} e w : run (raise (A := A) e) w = (Raise e, w).
Proof. reflexivity. Qed.

Lemma run_lift {A} (r : res A) w : run (lift r) w = (r, w).
Proof. reflexivity. Qed.

Lemma files_add_events l w : files (add_events l w) = files w.
Proof. reflexivity. Qed.

Lemma windows_add_events l w : windows (add_events l w) = windows w.
Proof. reflexivity. Qed.

Lemma events_add_events l w : events (add_events l w) = events w ++ l.
Proof. reflexivity. Qed.

(** Rewriting a run into its result and its final world. *)
Ltac step :=
  repeat (first [ rewrite run_bind | rewrite run_ret | rewrite run_emit
                | rewrite run_log | rewrite run_gets | rewrite run_modify
                | rewrite run_raise | rewrite run_lift ];
          cbv beta iota);
  rewrite ?add_events_app.

(** Two worlds that differ in how their traces are bracketed. *)
Ltac trace_eq :=
  cbn; rewrite ?add_event_events, ?add_events_app; cbn; try reflexivity.

(** Two worlds built from the same one by appending windows and events. *)
Ltac world_eq :=
  unfold world_with, world_files, add_events, set_windows, set_files; cbn; f_equal;
  repeat rewrite app_nil_r; repeat rewrite <- app_assoc; cbn;
  repeat rewrite app_nil_r; repeat rewrite <- app_assoc; try reflexivity.

(** ** Arity check of [start_video_wallpaper] *)

(** C6: with lists of different lengths the engine only logs the mismatch:
    the call returns at once, the session (the manager's windows), the
    files and the pid list are untouched, no window creation is attempted
    and no native call is made. *)
Theorem start_arity_mismatch_no_work (pf : Platform) (video_paths : list string)
    (display_ids : list nat) (w : World) :
  length video_paths ≠ length display_ids →
  run (start_video_wallpaper pf video_paths display_ids) w =
    (Ok tt, add_events [Log (ErrMismatch (length video_paths) (length display_ids))] w)
  ∧ windows (final (start_video_wallpaper pf video_paths display_ids) w) = windows w.
Proof.
  intros Hlen. unfold start_video_wallpaper, final.
  destruct (Nat.eqb_spec (length video_paths) (length display_ids)) as [|_]; [done|].
  simpl. split; reflexivity.
Qed.

Lemma start_arity_mismatch_no_work_witness :
  length [Sample.sea; Sample.sky] ≠ length [0; 1; 2]
  ∧ run (start_video_wallpaper Sample.three_displays [Sample.sea; Sample.sky] [0; 1; 2])
        Sample.fresh
    = (Ok tt, add_events [Log (ErrMismatch 2 3)] Sample.fresh)
  ∧ windows (final (start_video_wallpaper Sample.three_displays
                      [Sample.sea; Sample.sky] [0; 1; 2]) Sample.fresh) = [].
Proof.
  split; [simpl; lia|].
  apply (start_arity_mismatch_no_work Sample.three_displays
           [Sample.sea; Sample.sky] [0; 1; 2] Sample.fresh).
  simpl; lia.
Defined.

(** ** [cleanup] *)

Lemma cleanup_run (self : SPVideoWallpaperWindow) (w : World) :
  ∃ tr,
    run (cleanup self) w =
      (Ok {| window := None; player := None; player_layer := None; looper := None;
             target_screen := target_screen self; crop_info := crop_info self |},
       add_events (tr ++ [Log InfoCleanedUp]) w)
    ∧ tr = (if truthy (player self) then [PlayerPause] else [])
           ++ (if truthy (player_layer self) && truthy (window self)
               then [LayerRemove] else [])
           ++ (if truthy (window self) then [WindowClose] else []).
Proof.
  destruct self as [[win|] [pl|] [ly|] lo ts ci]; eexists; split; try reflexivity;
    unfold run, cleanup, bind, add_events; simpl; unfold add_event; simpl;
    rewrite <- ?app_assoc; reflexivity.
Qed.


(** ** [kill_all_daemons] *)

Lemma kill_pids_run (pf : Platform) (pids : list nat) (w : World) :
  run (kill_pids pf pids) w = (Ok tt, add_events (pids ≫= kill_trace pf) w).
Proof.
  revert w. induction pids as [|pid rest IH]; intros w.
  - by rewrite add_events_nil.
  - cbn [kill_pids mbind list_bind]. unfold kill_trace at 1.
    step. destruct (kill_result pf pid); step; rewrite IH; step; reflexivity.
Qed.

Lemma kill_trace_signals (pf : Platform) (pids : list nat) :
  filter is_signal (pids ≫= kill_trace pf) = Kill <$> pids.
Proof.
  induction pids as [|pid rest IH]; [done|].
  cbn [mbind list_bind]. rewrite filter_app, IH. unfold kill_trace.
  destruct (kill_result pf pid); reflexivity.
Qed.

Lemma kill_trace_no_error (pf : Platform) (pids : list nat) (pid : nat) :
  kill_result pf pid = ProcessLookupError →
  Log (ErrKilling pid) ∉ pids ≫= kill_trace pf.
Proof.
  intros Hgone. induction pids as [|p rest IH]; cbn [mbind list_bind].
  - apply not_elem_of_nil.
  - rewrite elem_of_app. intros [Hin|Hin]; [|by apply IH].
    unfold kill_trace in Hin. apply elem_of_cons in Hin as [Hin|Hin]; [done|].
    destruct (kill_result pf p) eqn:Hp.
    + apply list_elem_of_singleton in Hin. done.
    + by apply elem_of_nil in Hin.
    + apply list_elem_of_singleton in Hin. congruence.
Qed.

(** C9: [kill_all_daemons] never raises; it first posts the terminate
    notification, then sends SIGTERM to every tracked pid in turn, logs no
    error for a pid whose process is already gone, and leaves the pid list
    empty whatever the outcome of the individual signals; files and windows
    are not touched. *)
Theorem kill_all_daemons_clears_registry (pf : Platform) (w : World) :
  ∃ tr,
    run (kill_all_daemons pf) w =
      (Ok tt,
       set_daemon_pids []
         (add_events (PostNotification "com.superpaper.video.terminate" :: tr) w))
    ∧ daemon_pids (final (kill_all_daemons pf) w) = []
    ∧ filter is_signal tr = Kill <$> daemon_pids w
    ∧ (∀ pid, kill_result pf pid = ProcessLookupError → Log (ErrKilling pid) ∉ tr).
Proof.
  exists ((if notify_raises pf then [Log ErrTerminateNotification]
           else [Log InfoSentTerminate]) ++ (daemon_pids w ≫= kill_trace pf)).
  assert (Hrun : run (kill_all_daemons pf) w =
      (Ok tt,
       set_daemon_pids []
         (add_events (PostNotification "com.superpaper.video.terminate" ::
            (if notify_raises pf then [Log ErrTerminateNotification]
             else [Log InfoSentTerminate]) ++ (daemon_pids w ≫= kill_trace pf)) w))).
  { unfold kill_all_daemons, send_terminate_notification. step.
    destruct (notify_raises pf); step; rewrite kill_pids_run; step; reflexivity. }
  split; [exact Hrun|]. split; [unfold final; unfold run in Hrun; by rewrite Hrun|].
  split.
  - rewrite filter_app, kill_trace_signals.
    by destruct (notify_raises pf).
  - intros pid Hgone. rewrite elem_of_app. intros [Hin|Hin].
    + destruct (notify_raises pf); apply list_elem_of_singleton in Hin; done.
    + by apply (kill_trace_no_error pf (daemon_pids w) pid).
Qed.

(** ** The bounding canvas *)

Lemma span_scan_run (pf : Platform) (display_ids : list nat) (a : SpanScan) (w : World) :
  run (span_scan pf display_ids a) w =
    (Ok (scan_all (selected pf display_ids) a),
     add_events (range_warnings pf display_ids) w).
Proof.
  revert a w. induction display_ids as [|id rest IH]; intros a w.
  - by rewrite add_events_nil.
  - cbn [span_scan]. unfold selected, range_warnings. cbn [omap list_omap].
    destruct (Nat.leb_spec (length (screens pf)) id) as [Hge|Hlt].
    + rewrite (lookup_ge_None_2 _ _ Hge). cbn [fmap option_fmap option_map].
      step. rewrite IH. step. reflexivity.
    + destruct (lookup_lt_is_Some_2 _ _ Hlt) as [s Hs]. rewrite Hs.
      cbn [fmap option_fmap option_map]. rewrite IH. reflexivity.
Qed.

Section Extremes.













End Extremes.

Lemma scan_all_fields (l : list (NSScreen * nat)) (a : SpanScan) :
  sel (scan_all l a) = sel a ++ l
  ∧ min_x (scan_all l a) = fold_min (min_x a) (left_edge <$> l)
  ∧ min_y (scan_all l a) = fold_min (min_y a) (bottom_edge <$> l)
  ∧ max_x (scan_all l a) = fold_max (max_x a) (right_edge <$> l)
  ∧ max_y (scan_all l a) = fold_max (max_y a) (top_edge <$> l).
Proof.
  revert a. induction l as [|[s id] l IH]; intros a.
  - cbn. by rewrite app_nil_r.
  - change (scan_all ((s, id) :: l) a) with (scan_all l (span_scan_add s id a)).
    destruct (IH (span_scan_add s id a)) as (H1 & H2 & H3 & H4 & H5).
    rewrite H1, H2, H3, H4, H5. cbn. rewrite <- app_assoc. done.
Qed.



(** ** The crop rectangle *)





Lemma fdiv_raise (a b : pyfloat) (e : exn) :
  fdiv a b = Raise e → e = ZeroDivisionError.
Proof.
  unfold fdiv. destruct b as [| |y|]; destruct a; try case_decide; congruence.
Qed.

(** C2: on a canvas of zero width or zero height the crop computation does
    not fall back to the full frame: the first division by the zero extent
    raises [ZeroDivisionError].  A spanning request for a single zero-size
    display makes the whole start raise, with no window created. *)
Theorem zero_canvas_raises_zero_division :
  (∀ fr mnx mny c,
     span_crop fr mnx mny zero c = Raise ZeroDivisionError
     ∧ span_crop fr mnx mny c zero = Raise ZeroDivisionError)
  ∧ result (start_video_wallpaper Sample.degenerate_display
              [Sample.sea; Sample.sea] [0; 0]) Sample.fresh
    = Raise ZeroDivisionError
  ∧ windows (final (start_video_wallpaper Sample.degenerate_display
                      [Sample.sea; Sample.sea] [0; 0]) Sample.fresh) = [].
Proof.
  split; [|split].
  - intros fr mnx mny c. split; [reflexivity|].
    unfold span_crop.
    destruct (fdiv (fsub (Fin (origin_x fr)) mnx) c) eqn:Hx; [reflexivity|].
    by rewrite (fdiv_raise _ _ _ Hx).
  - vm_compute. reflexivity.
  - vm_compute. reflexivity.
Qed.

(** ** Video gravity *)

Lemma setup_gravity (pf : Platform) (self : SPVideoWallpaperWindow) (video : string)
    (screen : option NSScreen) (volume : Qc) (mode : string)
    (crop : option CropRect) (w : World) (self' : SPVideoWallpaperWindow) :
  result (setupWithVideo_screen_volume_scaleMode_cropRect_ pf self video screen
            volume mode crop) w = Ok (Some self') →
  videoGravity <$> player_layer self' = Some AVLayerVideoGravityResizeAspectFill
  ∧ crop_info self' = Some crop.
Proof.
  unfold result, setupWithVideo_screen_volume_scaleMode_cropRect_.
  unfold bind at 1. cbn [path_exists gets].
  destruct (bool_decide (video ∈ files w)); cbn [negb]; [|discriminate].
  destruct screen as [scr|]; [|discriminate].
  destruct (native_fault pf video scr); [discriminate|].
  destruct crop as [c|].
  - destruct (spanned_layer_frame _ _ c); [|discriminate].
    cbn. intros [= <-]. done.
  - cbn. intros [= <-]. done.
Qed.

Lemma daemon_gravity (fr : NSRect) (d : VideoWallpaperWindow) :
  videoGravity <$> daemon_player_layer (setupVideoPlayer fr d)
  = Some (spec_gravity (scale_mode d)).
Proof.
  unfold setupVideoPlayer, spec_gravity. cbn.
  destruct (String.eqb_spec (scale_mode d) "fill") as [->|Hfill]; [done|].
  rewrite decide_False by done.
  destruct (String.eqb_spec (scale_mode d) "fit") as [->|Hfit]; [done|].
  by rewrite decide_False by done.
Qed.

(** C3, as the claim states it, fails in the in-process window: a spanned
    window asked for [fit] gets the aspect-fill gravity. *)
Lemma in_process_gravity_ignores_scale_mode :
  ∃ win,
    result (createWithVideo_screen_volume_scaleMode_cropRect_ Sample.two_displays
              Sample.sea (Some Sample.left_screen) 0%Qc "fit"
              (Some (Fin 0%Qc, Fin 0%Qc, Fin (1 / 2)%Qc, Fin 1%Qc))) Sample.fresh
    = Ok (Some win)
    ∧ videoGravity <$> player_layer win = Some AVLayerVideoGravityResizeAspectFill
    ∧ videoGravity <$> player_layer win ≠ Some (spec_gravity "fit").
Proof.
  eexists. split; [vm_compute; reflexivity|]. split; [reflexivity|].
  vm_compute. discriminate.
Qed.

(** C3, amended: the daemon's player layer takes its gravity from the scale
    mode ([fill] to aspect-fill, [fit] to aspect, any other value to plain
    resize); a spanned in-process window (one set up with a crop rectangle)
    has the aspect-fill gravity whatever the scale mode. *)
Theorem gravity_of_scale_mode (pf : Platform) (self : SPVideoWallpaperWindow)
    (video : string) (scr : NSScreen) (volume : Qc) (mode : string)
    (crop : CropRect) (w : World) (self' : SPVideoWallpaperWindow)
    (fr : NSRect) (d : VideoWallpaperWindow) :
  result (setupWithVideo_screen_volume_scaleMode_cropRect_ pf self video (Some scr)
            volume mode (Some crop)) w = Ok (Some self') →
  videoGravity <$> player_layer self' = Some AVLayerVideoGravityResizeAspectFill
  ∧ videoGravity <$> daemon_player_layer (setupVideoPlayer fr d)
    = Some (spec_gravity (scale_mode d))
  ∧ spec_gravity "fill" = AVLayerVideoGravityResizeAspectFill
  ∧ spec_gravity "fit" = AVLayerVideoGravityResizeAspect
  ∧ (∀ other : string, other ≠ "fill"%string → other ≠ "fit"%string →
       spec_gravity other = AVLayerVideoGravityResize).
Proof.
  intros Hsetup. split; [by eapply setup_gravity|].
  split; [apply daemon_gravity|]. split; [done|]. split; [done|].
  intros other Hfill Hfit. unfold spec_gravity. by rewrite !decide_False by done.
Qed.

(** ** The window factory *)

Lemma spanned_layer_frame_total (ww wh : pyfloat) (crop : CropRect) :
  ∃ f, spanned_layer_frame ww wh crop = Ok f.
Proof.
  destruct crop as [[[x y] cw] ch]. unfold spanned_layer_frame.
  assert (Hdiv : ∀ a b, flt zero b = true → ∃ c, fdiv a b = Ok c).
  { intros a b Hb. unfold fdiv. destruct b as [| |q|]; try discriminate.
    - cbn in Hb. apply bool_decide_eq_true in Hb.
      rewrite decide_False; [destruct a; eauto|].
      intros ->. by apply Qclt_not_eq in Hb.
    - destruct a; eauto. }
  destruct (flt zero cw) eqn:Hw; destruct (flt zero ch) eqn:Hh.
  - destruct (Hdiv ww cw Hw) as [c1 ->]. destruct (Hdiv wh ch Hh) as [c2 ->]. eauto.
  - destruct (Hdiv ww cw Hw) as [c1 ->]. eauto.
  - destruct (Hdiv wh ch Hh) as [c2 ->]. eauto.
  - eauto.
Qed.

Lemma create_run (pf : Platform) (video : string) (screen : option NSScreen)
    (volume : Qc) (mode : string) (crop : option CropRect) (w : World) :
  run (createWithVideo_screen_volume_scaleMode_cropRect_ pf video screen volume
         mode crop) w =
    (Ok (create_outcome pf (files w) video screen volume mode crop),
     add_events (create_events pf (files w) video screen volume mode crop) w).
Proof.
  unfold create_outcome, create_events, result, final, run,
    createWithVideo_screen_volume_scaleMode_cropRect_,
    setupWithVideo_screen_volume_scaleMode_cropRect_, bind, path_exists, gets,
    log, emit, modify, ret.
  cbn [files world_of_files add_event fst snd].
  destruct (bool_decide (video ∈ files w)); cbn [negb]; [|by trace_eq].
  destruct screen as [scr|]; [|by trace_eq].
  destruct (native_fault pf video scr); [by trace_eq|].
  destruct crop as [c|]; [|by trace_eq].
  destruct (spanned_layer_frame _ _ c); by trace_eq.
Qed.

Lemma create_events_shape (pf : Platform) (fs : gset string) (video : string)
    (screen : option NSScreen) (volume : Qc) (mode : string) (crop : option CropRect) :
  filter is_create_call (create_events pf fs video screen volume mode crop)
    = [CreateCall video screen volume mode crop]
  ∧ filter is_native (create_events pf fs video screen volume mode crop) = [].
Proof.
  unfold create_events, final,
    createWithVideo_screen_volume_scaleMode_cropRect_,
    setupWithVideo_screen_volume_scaleMode_cropRect_, bind, path_exists, gets,
    log, emit, modify, ret.
  cbn [files world_of_files add_event fst snd].
  destruct (bool_decide (video ∈ fs)); cbn [negb]; [|split; reflexivity].
  destruct screen as [scr|]; [|split; reflexivity].
  destruct (native_fault pf video scr); [split; reflexivity|].
  destruct crop as [c|]; [|split; reflexivity].
  destruct (spanned_layer_frame _ _ c); split; reflexivity.
Qed.

(** The factory yields a window exactly when the video is on disk, a screen
    was found and no native call failed; the window is bound to that
    screen, plays that video and remembers the crop rectangle. *)
Lemma create_outcome_spec (pf : Platform) (fs : gset string) (video : string)
    (screen : option NSScreen) (volume : Qc) (mode : string) (crop : option CropRect) :
  match create_outcome pf fs video screen volume mode crop with
  | Some win =>
      video ∈ fs
      ∧ (∃ scr, screen = Some scr ∧ native_fault pf video scr = false)
      ∧ target_screen win = screen
      ∧ crop_info win = Some crop
      ∧ item_path <$> player win = Some video
      ∧ is_Some (window win)
  | None =>
      video ∉ fs ∨ screen = None
      ∨ ∃ scr, screen = Some scr ∧ native_fault pf video scr = true
  end.
Proof.
  unfold create_outcome, result,
    createWithVideo_screen_volume_scaleMode_cropRect_,
    setupWithVideo_screen_volume_scaleMode_cropRect_, bind, path_exists, gets,
    log, emit, modify, ret.
  cbn [files world_of_files add_event fst snd].
  case_bool_decide as Hin; cbn [negb]; [|cbn; by left].
  destruct screen as [scr|]; [|cbn; right; by left].
  destruct (native_fault pf video scr) eqn:Hfault; [cbn; right; right; eauto|].
  destruct crop as [c|].
  - destruct (spanned_layer_frame_total (Fin (size_width (frame scr)))
                (Fin (size_height (frame scr))) c) as [f ->].
    cbn. eauto 10.
  - cbn. eauto 10.
Qed.

(** ** The two creation loops *)

Lemma world_with_add_events ws tr tr' w :
  add_events tr' (world_with ws tr w) = world_with ws (tr ++ tr') w.
Proof. unfold add_events, world_with; cbn. by rewrite app_assoc. Qed.

Lemma world_with_set_windows ws ws' tr w :
  set_windows ws' (world_with ws tr w) = world_with ws' tr w.
Proof. reflexivity. Qed.

Lemma world_with_world_with ws ws' tr tr' w :
  world_with ws' tr' (world_with ws tr w) = world_with ws' (tr ++ tr') w.
Proof. unfold world_with; cbn. by rewrite app_assoc. Qed.

Lemma add_events_world_with tr w : add_events tr w = world_with (windows w) tr w.
Proof. reflexivity. Qed.

Lemma run_append_window win w :
  run (append_window win) w = (Ok tt, world_with (windows w ++ [win]) [] w).
Proof.
  unfold append_window. rewrite run_modify. unfold set_windows, world_with.
  by rewrite app_nil_r.
Qed.

Lemma individual_create_run (pf : Platform) (volume : Qc) (mode : string)
    (todo : list (string * nat)) (n : nat) (w : World) :
  ∃ tr,
    run (individual_create pf volume mode todo n) w =
      (Ok (n + length (individual_windows pf (files w) volume mode todo)),
       world_with (windows w ++ individual_windows pf (files w) volume mode todo) tr w)
    ∧ filter is_create_call tr
      = (λ p, CreateCall p.1 (screen_for pf p.2) volume mode None) <$> todo
    ∧ filter is_native tr = [].
Proof.
  revert n w. induction todo as [|[video id] rest IH]; intros n w.
  - exists []. cbn. rewrite Nat.add_0_r, app_nil_r.
    unfold world_with. rewrite app_nil_r. by destruct w.
  - cbn [individual_create].
    set (pick := (if length (screens pf) <=? id
                  then log (WarnIndexUsesMain id);; ret (mainScreen pf)
                  else match screens pf !! id with
                       | Some s => ret (Some s)
                       | None => raise IndexError
                       end)).
    assert (Hpick : ∃ trp, run pick w = (Ok (screen_for pf id), add_events trp w)
                           ∧ filter is_create_call trp = []
                           ∧ filter is_native trp = []).
    { unfold pick, screen_for.
      destruct (Nat.leb_spec (length (screens pf)) id) as [Hge|Hlt].
      - eexists. step. split; [reflexivity|]. split; reflexivity.
      - destruct (lookup_lt_is_Some_2 _ _ Hlt) as [s ->].
        exists []. step. by rewrite add_events_nil. }
    destruct Hpick as (trp & Hpick & Hp1 & Hp2).
    destruct (create_events_shape pf (files w) video (screen_for pf id)
                volume mode None) as [Hc1 Hc2].
    unfold individual_windows. cbn [omap list_omap fst snd].
    fold (individual_windows pf (files w) volume mode rest).
    rewrite run_bind, Hpick. cbv beta iota.
    rewrite run_bind, create_run. cbv beta iota. rewrite files_add_events.
    destruct (create_outcome pf (files w) video (screen_for pf id) volume mode None)
      as [win|].
    + step. rewrite run_append_window. cbv beta iota. step.
      set (w1 := add_events _ _).
      destruct (IH (S n) w1) as (tr & Hrun & Ht1 & Ht2).
      rewrite Hrun.
      eexists (trp ++ create_events pf (files w) video (screen_for pf id)
                 volume mode None ++ [Log (InfoStartedOn id)] ++ tr).
      split; [|split].
      * f_equal; [f_equal; cbn; lia|].
        unfold w1. world_eq.
      * rewrite !filter_app, Hp1, Hc1, Ht1. reflexivity.
      * rewrite !filter_app, Hp2, Hc2, Ht2. reflexivity.
    + step.
      set (w1 := add_events _ _).
      destruct (IH n w1) as (tr & Hrun & Ht1 & Ht2).
      rewrite Hrun.
      eexists (trp ++ create_events pf (files w) video (screen_for pf id)
                 volume mode None ++ [Log (ErrCreateIndividual id)] ++ tr).
      split; [|split].
      * f_equal.
        unfold w1. world_eq.
      * rewrite !filter_app, Hp1, Hc1, Ht1. reflexivity.
      * rewrite !filter_app, Hp2, Hc2, Ht2. reflexivity.
Qed.

Lemma span_create_run (pf : Platform) (video : string) (volume : Qc) (mode : string)
    (mnx mny cw ch : pyfloat) (crop_of : NSRect → CropRect)
    (todo : list (NSScreen * nat)) (n : nat) (w : World) :
  (∀ fr, span_crop fr mnx mny cw ch = Ok (crop_of fr)) →
  ∃ tr,
    run (span_create pf video volume mode mnx mny cw ch todo n) w =
      (Ok (n + length (spanned_windows pf (files w) video volume mode crop_of todo)),
       world_with (windows w ++ spanned_windows pf (files w) video volume mode
                                  crop_of todo) tr w)
    ∧ filter is_create_call tr
      = (λ p, CreateCall video (Some p.1) volume mode (Some (crop_of (frame p.1))))
          <$> todo
    ∧ filter is_native tr = [].
Proof.
  intros Hcrop. revert n w. induction todo as [|[screen id] rest IH]; intros n w.
  - exists []. cbn. rewrite Nat.add_0_r, app_nil_r.
    unfold world_with. rewrite app_nil_r. by destruct w.
  - cbn [span_create].
    destruct (create_events_shape pf (files w) video (Some screen) volume mode
                (Some (crop_of (frame screen)))) as [Hc1 Hc2].
    unfold spanned_windows. cbn [omap list_omap fst snd].
    fold (spanned_windows pf (files w) video volume mode crop_of rest).
    rewrite run_bind, run_lift, Hcrop. cbv beta iota.
    rewrite run_bind, run_log. cbv beta iota.
    rewrite run_bind, create_run. cbv beta iota. rewrite files_add_events.
    destruct (create_outcome pf (files w) video (Some screen) volume mode
                (Some (crop_of (frame screen)))) as [win|].
    + step. rewrite run_append_window. cbv beta iota. step.
      set (w1 := add_events _ _).
      destruct (IH (S n) w1) as (tr & Hrun & Ht1 & Ht2).
      rewrite Hrun.
      eexists ([Log (InfoDisplayCrop id (crop_of (frame screen)))]
               ++ create_events pf (files w) video (Some screen) volume mode
                    (Some (crop_of (frame screen)))
               ++ [Log (InfoCreatedSpanned id)] ++ tr).
      split; [|split].
      * f_equal; [f_equal; cbn; lia|]. unfold w1. world_eq.
      * rewrite !filter_app, Hc1, Ht1. reflexivity.
      * rewrite !filter_app, Hc2, Ht2. reflexivity.
    + step.
      set (w1 := add_events _ _).
      destruct (IH n w1) as (tr & Hrun & Ht1 & Ht2).
      rewrite Hrun.
      eexists ([Log (InfoDisplayCrop id (crop_of (frame screen)))]
               ++ create_events pf (files w) video (Some screen) volume mode
                    (Some (crop_of (frame screen)))
               ++ [Log (ErrCreateSpanned id)] ++ tr).
      split; [|split].
      * f_equal. unfold w1. world_eq.
      * rewrite !filter_app, Hc1, Ht1. reflexivity.
      * rewrite !filter_app, Hc2, Ht2. reflexivity.
Qed.

(** ** Stopping the session *)

Lemma cleanup_windows_run (i : nat) (todo : list SPVideoWallpaperWindow) (w : World) :
  ∃ ws tr,
    run (cleanup_windows i todo) w = (Ok tt, world_with ws tr w)
    ∧ filter is_create_call tr = [] ∧ filter is_extract tr = [].
Proof.
  revert i w. induction todo as [|self rest IH]; intros i w.
  - exists (windows w), []. unfold world_with. rewrite app_nil_r. by destruct w.
  - cbn [cleanup_windows].
    destruct (cleanup_run self w) as (trc & Hrun & Htrc).
    rewrite run_bind, Hrun. cbv beta iota. step.
    set (w1 := set_windows _ _).
    destruct (IH (S i) w1) as (ws & tr & Hrest & Ht1 & Ht2).
    rewrite Hrest. exists ws, ((trc ++ [Log InfoCleanedUp]) ++ tr).
    split; [|split].
    + f_equal. unfold w1. world_eq.
    + rewrite !filter_app, Ht1, Htrc.
      by destruct (truthy (player self)), (truthy (player_layer self)),
        (truthy (window self)).
    + rewrite !filter_app, Ht2, Htrc.
      by destruct (truthy (player self)), (truthy (player_layer self)),
        (truthy (window self)).
Qed.

(** [stopAllWallpapers] never raises and leaves no window. *)
Lemma stopAllWallpapers_run (w : World) :
  ∃ tr,
    run stopAllWallpapers w = (Ok tt, world_with [] tr w)
    ∧ filter is_create_call tr = [] ∧ filter is_extract tr = [].
Proof.
  unfold stopAllWallpapers. rewrite run_bind, run_gets. cbv beta iota.
  destruct (cleanup_windows_run 0 (windows w) w) as (ws & tr & Hrun & Ht1 & Ht2).
  rewrite run_bind, Hrun. cbv beta iota. step.
  exists (tr ++ [Log InfoAllStopped]). split; [|split].
  - f_equal. world_eq.
  - rewrite filter_app, Ht1. reflexivity.
  - rewrite filter_app, Ht2. reflexivity.
Qed.

Lemma stop_video_wallpapers_run (w : World) :
  ∃ tr,
    run stop_video_wallpapers w = (Ok tt, world_with [] tr w)
    ∧ filter is_create_call tr = [] ∧ filter is_extract tr = [].
Proof.
  destruct (stopAllWallpapers_run w) as (tr & Hrun & Ht).
  exists tr. split; [|exact Ht].
  unfold stop_video_wallpapers, run, try_except. unfold run in Hrun. by rewrite Hrun.
Qed.

(** ** The spanned start *)

Lemma span_crop_zero (fr : NSRect) (mnx mny c : pyfloat) :
  span_crop fr mnx mny zero c = Raise ZeroDivisionError
  ∧ span_crop fr mnx mny c zero = Raise ZeroDivisionError.
Proof.
  split; [reflexivity|]. unfold span_crop.
  destruct (fdiv (fsub (Fin (origin_x fr)) mnx) c) eqn:Hx; [reflexivity|].
  by rewrite (fdiv_raise _ _ _ Hx).
Qed.

Lemma fdiv_nonzero (a b : pyfloat) : b ≠ zero → ∃ c, fdiv a b = Ok c.
Proof.
  intros Hb. unfold fdiv. destruct b as [| |y|]; try (destruct a; eauto; fail).
  rewrite decide_False; [destruct a; eauto|]. intros ->. by apply Hb.
Qed.

(** The division either fails for every frame or succeeds for every frame. *)
Lemma span_crop_dichotomy (mnx mny cw ch : pyfloat) :
  (∀ fr, span_crop fr mnx mny cw ch = Raise ZeroDivisionError)
  ∨ (∃ crop_of, ∀ fr, span_crop fr mnx mny cw ch = Ok (crop_of fr)).
Proof.
  destruct (decide (cw = zero)) as [->|Hw].
  { left. intros fr. apply span_crop_zero. }
  destruct (decide (ch = zero)) as [->|Hh].
  { left. intros fr. apply span_crop_zero. }
  right.
  exists (λ fr, match span_crop fr mnx mny cw ch with
                | Ok c => c
                | Raise _ => (zero, zero, zero, zero)
                end).
  intros fr. unfold span_crop.
  destruct (fdiv_nonzero (fsub (Fin (origin_x fr)) mnx) cw Hw) as [c1 ->].
  destruct (fdiv_nonzero (fsub (Fin (origin_y fr)) mny) ch Hh) as [c2 ->].
  destruct (fdiv_nonzero (Fin (size_width fr)) cw Hw) as [c3 ->].
  destruct (fdiv_nonzero (Fin (size_height fr)) ch Hh) as [c4 ->].
  reflexivity.
Qed.

Lemma range_warnings_logs (pf : Platform) (display_ids : list nat) :
  filter is_create_call (range_warnings pf display_ids) = []
  ∧ filter is_native (range_warnings pf display_ids) = [].
Proof.
  induction display_ids as [|id rest [IH1 IH2]]; [done|].
  unfold range_warnings in *. cbn [omap list_omap].
  destruct (length (screens pf) <=? id); [|done].
  split; rewrite filter_cons; cbn [is_create_call is_native]; by case_decide.
Qed.

Lemma start_spanned_none (pf : Platform) (video : string) (display_ids : list nat)
    (volume : Qc) (mode : string) (w : World) :
  selected pf display_ids = [] →
  run (start_spanned_wallpaper pf video display_ids volume mode) w =
    (Ok false, add_events (range_warnings pf display_ids ++ [Log ErrNoScreens]) w).
Proof.
  intros Hsel. unfold start_spanned_wallpaper.
  rewrite run_bind, span_scan_run. cbv beta iota.
  destruct (scan_all_fields (selected pf display_ids) span_scan_init) as [-> _].
  rewrite Hsel. cbn [sel span_scan_init app]. step. reflexivity.
Qed.

Lemma start_spanned_raise (pf : Platform) (video : string) (display_ids : list nat)
    (volume : Qc) (mode : string) (w : World) :
  let a := spanned_canvas pf display_ids in
  selected pf display_ids ≠ [] →
  (∀ fr, span_crop fr (min_x a) (min_y a) (canvas_width_of a) (canvas_height_of a)
         = Raise ZeroDivisionError) →
  run (start_spanned_wallpaper pf video display_ids volume mode) w =
    (Raise ZeroDivisionError,
     add_events (range_warnings pf display_ids
                 ++ [Log (InfoCanvasSize (canvas_width_of a) (canvas_height_of a))]) w).
Proof.
  intros a Hsel Hraise. unfold start_spanned_wallpaper.
  rewrite run_bind, span_scan_run. cbv beta iota. fold (spanned_canvas pf display_ids).
  fold a. destruct (scan_all_fields (selected pf display_ids) span_scan_init) as [Hs _].
  fold (spanned_canvas pf display_ids) in Hs. fold a in Hs.
  cbn [sel span_scan_init app] in Hs. rewrite Hs.
  destruct (selected pf display_ids) as [|[screen id] rest] eqn:Hl; [done|].
  step. cbn [span_create]. rewrite run_bind, run_lift.
  fold (canvas_width_of a). fold (canvas_height_of a). rewrite Hraise. reflexivity.
Qed.

Lemma start_spanned_ok (pf : Platform) (video : string) (display_ids : list nat)
    (volume : Qc) (mode : string) (crop_of : NSRect → CropRect) (w : World) :
  let a := spanned_canvas pf display_ids in
  let new := spanned_windows pf (files w) video volume mode crop_of
               (selected pf display_ids) in
  selected pf display_ids ≠ [] →
  (∀ fr, span_crop fr (min_x a) (min_y a) (canvas_width_of a) (canvas_height_of a)
         = Ok (crop_of fr)) →
  ∃ tr,
    run (start_spanned_wallpaper pf video display_ids volume mode) w =
      (Ok (0 <? length new), world_with (windows w ++ new) tr w)
    ∧ filter is_create_call tr
      = (λ p, CreateCall video (Some p.1) volume mode (Some (crop_of (frame p.1))))
          <$> selected pf display_ids
    ∧ filter is_native tr = [].
Proof.
  intros a new Hsel Hcrop. unfold start_spanned_wallpaper.
  rewrite run_bind, span_scan_run. cbv beta iota. fold (spanned_canvas pf display_ids).
  fold a. destruct (scan_all_fields (selected pf display_ids) span_scan_init) as [Hs _].
  fold (spanned_canvas pf display_ids) in Hs. fold a in Hs.
  cbn [sel span_scan_init app] in Hs. rewrite Hs.
  destruct (selected pf display_ids) as [|p rest] eqn:Hl; [done|].
  rewrite run_bind, run_log. cbv beta iota.
  fold (canvas_width_of a). fold (canvas_height_of a).
  set (w1 := add_events _ _).
  destruct (span_create_run pf video volume mode (min_x a) (min_y a)
              (canvas_width_of a) (canvas_height_of a) crop_of (p :: rest) 0 w1 Hcrop)
    as (tr & Hrun & Ht1 & Ht2).
  rewrite run_bind, Hrun. cbv beta iota. step.
  destruct (range_warnings_logs pf display_ids) as [Hr1 Hr2].
  exists (range_warnings pf display_ids
          ++ [Log (InfoCanvasSize (canvas_width_of a) (canvas_height_of a))] ++ tr).
  split; [|split].
  - f_equal. unfold w1. world_eq.
  - rewrite !filter_app, Hr1, Ht1. reflexivity.
  - rewrite !filter_app, Hr2, Ht2. reflexivity.
Qed.

(** ** Spanning or individual *)

Lemma is_spanning_iff (video_paths : list string) :
  is_spanning video_paths = true ↔
  (∃ p, p ∈ video_paths ∧ ∀ q, q ∈ video_paths → q = p) ∧ 1 < length video_paths.
Proof.
  unfold is_spanning. rewrite andb_true_iff, Nat.eqb_eq, Nat.ltb_lt.
  split; intros [H1 H2]; (split; [|exact H2]).
  - apply size_1_elem_of in H1 as [p Hp]. exists p. split.
    + apply (elem_of_list_to_set (C := gset string)). rewrite Hp. set_solver.
    + intros q Hq. apply (elem_of_list_to_set (C := gset string)) in Hq.
      rewrite Hp in Hq. set_solver.
  - destruct H1 as (p & Hin & Hall).
    assert (Heq : (list_to_set video_paths : gset string) = {[p]}).
    { apply set_eq. intros q. rewrite elem_of_list_to_set, elem_of_singleton.
      split; [apply Hall|by intros ->]. }
    rewrite Heq. apply size_singleton.
Qed.

Lemma filter_cropless_calls (tr : list Event) :
  filter is_cropless_call (filter is_create_call tr) = filter is_cropless_call tr.
Proof.
  induction tr as [|e tr IH]; [done|].
  destruct e as [| v s vol sm [c|] | | | | | |];
    rewrite !(filter_cons _ _ tr); cbn [is_create_call is_cropless_call];
    repeat case_decide; try done;
    rewrite ?filter_cons; cbn [is_create_call is_cropless_call];
    repeat case_decide; try done; by rewrite IH.
Qed.

Lemma individual_windows_cropless (pf : Platform) (fs : gset string) (volume : Qc)
    (mode : string) (todo : list (string * nat)) :
  Forall (λ win, crop_info win = Some None) (individual_windows pf fs volume mode todo).
Proof.
  induction todo as [|[v id] rest IH]; [constructor|].
  unfold individual_windows. cbn [omap list_omap fst snd].
  pose proof (create_outcome_spec pf fs v (screen_for pf id) volume mode None) as Hspec.
  destruct (create_outcome pf fs v (screen_for pf id) volume mode None) as [win|];
    [|exact IH].
  constructor; [|exact IH]. by destruct Hspec as (_ & _ & _ & Hcrop & _).
Qed.

Lemma manager_start_individual (pf : Platform) (video_paths : list string)
    (display_ids : list nat) (volume : Qc) (mode : string) (w : World) :
  let new := individual_windows pf (files w) volume mode (zip video_paths display_ids) in
  is_spanning video_paths = false →
  ∃ tr,
    run (startWallpaperWithPaths_displayIDs_volume_scaleMode_ pf video_paths
           display_ids volume mode) w
      = (Ok (0 <? length new), world_with new tr w)
    ∧ filter is_create_call tr
      = (λ p, CreateCall p.1 (screen_for pf p.2) volume mode None)
          <$> zip video_paths display_ids
    ∧ filter is_extract tr = []
    ∧ Log (InfoIndividual (length display_ids)) ∈ tr.
Proof.
  intros new Hmode. unfold startWallpaperWithPaths_displayIDs_volume_scaleMode_.
  destruct (stopAllWallpapers_run w) as (trs & Hstop & Hs1 & Hs2).
  rewrite run_bind, Hstop, Hmode. cbv beta iota.
  rewrite run_bind, run_log. cbv beta iota. unfold start_individual_wallpapers.
  set (w1 := add_events _ _).
  destruct (individual_create_run pf volume mode (zip video_paths display_ids) 0 w1)
    as (tr & Hrun & Ht1 & Ht2).
  rewrite run_bind, Hrun. cbv beta iota. step.
  exists (trs ++ [Log (InfoIndividual (length display_ids))] ++ tr).
  split; [|split; [|split]].
  - f_equal. unfold w1. world_eq.
  - rewrite !filter_app, Hs1, Ht1. reflexivity.
  - rewrite !filter_app, Hs2.
    assert (Hsub : filter is_extract tr = []).
    { apply (f_equal (filter is_extract)) in Ht2.
      rewrite list_filter_filter in Ht2. rewrite <- Ht2 at 1.
      apply list_filter_iff. intros [] ; cbn; tauto. }
    by rewrite Hsub.
  - set_solver.
Qed.

Lemma manager_start_spanning (pf : Platform) (video_paths : list string)
    (display_ids : list nat) (volume : Qc) (mode : string) (w : World) :
  is_spanning video_paths = true →
  ∃ r ws tr,
    run (startWallpaperWithPaths_displayIDs_volume_scaleMode_ pf video_paths
           display_ids volume mode) w
      = (r, world_with ws tr w)
    ∧ filter is_cropless_call tr = []
    ∧ Log (InfoSpanning (length display_ids)) ∈ tr.
Proof.
  intros Hmode. unfold startWallpaperWithPaths_displayIDs_volume_scaleMode_.
  destruct (stopAllWallpapers_run w) as (trs & Hstop & Hs1 & Hs2).
  rewrite run_bind, Hstop, Hmode. cbv beta iota.
  rewrite run_bind, run_log. cbv beta iota.
  assert (Hs3 : filter is_cropless_call trs = []).
  { by rewrite <- filter_cropless_calls, Hs1. }
  destruct video_paths as [|first rest]; [discriminate|].
  set (w1 := add_events _ _).
  destruct (decide (selected pf display_ids = [])) as [Hnone|Hsome].
  { rewrite (start_spanned_none _ _ _ _ _ _ Hnone).
    destruct (range_warnings_logs pf display_ids) as [Hr1 _].
    exists (Ok false), [],
      (trs ++ [Log (InfoSpanning (length display_ids))]
           ++ range_warnings pf display_ids ++ [Log ErrNoScreens]).
    split; [|split].
    - f_equal. unfold w1. world_eq.
    - rewrite !filter_app, Hs3, <- (filter_cropless_calls (range_warnings _ _)), Hr1.
      reflexivity.
    - set_solver. }
  destruct (span_crop_dichotomy (min_x (spanned_canvas pf display_ids))
              (min_y (spanned_canvas pf display_ids))
              (canvas_width_of (spanned_canvas pf display_ids))
              (canvas_height_of (spanned_canvas pf display_ids)))
    as [Hraise|[crop_of Hcrop]].
  - rewrite (start_spanned_raise _ _ _ _ _ _ Hsome Hraise).
    destruct (range_warnings_logs pf display_ids) as [Hr1 _].
    eexists _, [], (trs ++ [Log (InfoSpanning (length display_ids))]
           ++ range_warnings pf display_ids ++ [_]).
    split; [|split].
    + f_equal. unfold w1. world_eq.
    + rewrite !filter_app, Hs3, <- (filter_cropless_calls (range_warnings _ _)), Hr1.
      reflexivity.
    + set_solver.
  - destruct (start_spanned_ok pf first display_ids volume mode crop_of w1 Hsome Hcrop)
      as (tr & Hrun & Ht1 & _).
    rewrite Hrun.
    eexists _, _, (trs ++ [Log (InfoSpanning (length display_ids))] ++ tr).
    split; [|split].
    + f_equal. unfold w1. world_eq.
    + assert (Hcalls : filter is_cropless_call tr = []).
      { rewrite <- (filter_cropless_calls tr), Ht1.
        clear. induction (selected pf display_ids) as [|p l IH]; [done|].
        rewrite fmap_cons, filter_cons. cbn [is_cropless_call]. by case_decide. }
      rewrite !filter_app, Hs3, Hcalls. reflexivity.
    + set_solver.
Qed.

(** C5: the manager spans exactly when the request holds a single distinct
    path and more than one path; no other input takes part in the choice.
    When it spans, no window factory call is made without a crop rectangle;
    otherwise the factory is called once per (path, display) pair, in
    order, each call with that pair's own path and with [None] as crop
    rectangle, and every window of the new session stores [None] as its
    crop. *)
Theorem spanning_decided_by_paths (pf : Platform) (video_paths : list string)
    (display_ids : list nat) (volume : Qc) (mode : string) (w : World) :
  (is_spanning video_paths = true ↔
     (∃ p, p ∈ video_paths ∧ ∀ q, q ∈ video_paths → q = p) ∧ 1 < length video_paths)
  ∧ ∃ r ws tr,
      run (startWallpaperWithPaths_displayIDs_volume_scaleMode_ pf video_paths
             display_ids volume mode) w = (r, world_with ws tr w)
      ∧ if is_spanning video_paths
        then Log (InfoSpanning (length display_ids)) ∈ tr
             ∧ filter is_cropless_call tr = []
        else Log (InfoIndividual (length display_ids)) ∈ tr
             ∧ filter is_create_call tr
               = (λ p, CreateCall p.1 (screen_for pf p.2) volume mode None)
                   <$> zip video_paths display_ids
             ∧ Forall (λ win, crop_info win = Some None) ws.
Proof.
  split; [apply is_spanning_iff|].
  destruct (is_spanning video_paths) eqn:Hmode.
  - destruct (manager_start_spanning pf video_paths display_ids volume mode w Hmode)
      as (r & ws & tr & Hrun & Hcalls & Hlog).
    exists r, ws, tr. done.
  - destruct (manager_start_individual pf video_paths display_ids volume mode w Hmode)
      as (tr & Hrun & Hcalls & _ & Hlog).
    eexists _, _, tr. split; [exact Hrun|]. split; [exact Hlog|]. split; [exact Hcalls|].
    apply individual_windows_cropless.
Qed.

(** ** The static frame cache *)

Lemma get_cached (pf : Platform) (video : string) (w : World) :
  static_path_of pf video ∈ files w →
  run (get_or_generate_static_frame pf video) w =
    (Ok (static_path_of pf video),
     add_events [Log (InfoUsingCached (static_path_of pf video))] w).
Proof.
  intros Hin. unfold get_or_generate_static_frame, path_exists.
  fold (static_path_of pf video). step.
  rewrite bool_decide_eq_true_2 by done. step. reflexivity.
Qed.


(** C7: the cache entry of a video is [<cache dir>/<stem>.png], so it is the
    same for two paths with the same stem.  When that file exists, the call
    returns its path and only logs the cache hit: no frame extraction is
    entered, whatever the age of the file.  Two calls in a row on a warm
    cache return the same path twice, with no extraction at all. *)
Theorem static_frame_cache_hit (pf : Platform) (video other : string) (w : World) :
  static_path_of pf video ∈ files w →
  PyPath.stem other = PyPath.stem video →
  static_path_of pf video
    = PyPath.join (static_cache_path pf) (PyPath.stem video +:+ ".png")
  ∧ run (get_or_generate_static_frame pf video) w
    = (Ok (static_path_of pf video),
       add_events [Log (InfoUsingCached (static_path_of pf video))] w)
  ∧ run (get_twice pf video) w
    = (Ok (static_path_of pf video, static_path_of pf video),
       add_events [Log (InfoUsingCached (static_path_of pf video));
                   Log (InfoUsingCached (static_path_of pf video))] w)
  ∧ filter is_extract (drop (length (events w))
                         (events (final (get_twice pf video) w))) = []
  ∧ run (get_or_generate_static_frame pf other) w
    = (Ok (static_path_of pf video),
       add_events [Log (InfoUsingCached (static_path_of pf video))] w).
Proof.
  intros Hwarm Hstem. split; [reflexivity|].
  split; [by apply get_cached|].
  assert (Htwice : run (get_twice pf video) w
    = (Ok (static_path_of pf video, static_path_of pf video),
       add_events [Log (InfoUsingCached (static_path_of pf video));
                   Log (InfoUsingCached (static_path_of pf video))] w)).
  { unfold get_twice. rewrite run_bind, get_cached by done. cbv beta iota.
    rewrite run_bind, get_cached by done. cbv beta iota. step. reflexivity. }
  split; [exact Htwice|]. split.
  - unfold final. unfold run in Htwice. rewrite Htwice. cbn [snd events add_events].
    by rewrite drop_app_length.
  - assert (Hsame : static_path_of pf other = static_path_of pf video).
    { unfold static_path_of. by rewrite Hstem. }
    rewrite <- Hsame. apply get_cached. by rewrite Hsame.
Qed.

Lemma static_frame_cache_hit_witness :
  static_path_of (Sample.platform []) Sample.sea ∈ files Sample.warm
  ∧ PyPath.stem "/Volumes/backup/sea.mov" = PyPath.stem Sample.sea
  ∧ run (get_twice (Sample.platform []) Sample.sea) Sample.warm
    = (Ok (static_path_of (Sample.platform []) Sample.sea,
           static_path_of (Sample.platform []) Sample.sea),
       add_events
         [Log (InfoUsingCached (static_path_of (Sample.platform []) Sample.sea));
          Log (InfoUsingCached (static_path_of (Sample.platform []) Sample.sea))]
         Sample.warm).
Proof.
  assert (Hwarm : static_path_of (Sample.platform []) Sample.sea ∈ files Sample.warm).
  { apply (bool_decide_unpack _). vm_compute. exact I. }
  assert (Hstem : PyPath.stem "/Volumes/backup/sea.mov" = PyPath.stem Sample.sea).
  { vm_compute. reflexivity. }
  split; [exact Hwarm|]. split; [exact Hstem|].
  apply (static_frame_cache_hit (Sample.platform []) Sample.sea
           "/Volumes/backup/sea.mov" Sample.warm Hwarm Hstem).
Defined.

(** ** The engine's start *)

Lemma world_files_world_files fs fs' tr tr' w :
  world_files fs' tr' (world_files fs tr w) = world_files fs' (tr ++ tr') w.
Proof. unfold world_files; cbn. by rewrite app_assoc. Qed.



(** ** Which windows a start creates *)











Lemma gravity_of_scale_mode_witness :
  ∃ win,
    result (setupWithVideo_screen_volume_scaleMode_cropRect_ Sample.two_displays
              init_window Sample.sea (Some Sample.right_screen) 0%Qc "stretch"
              (Some (Fin (1 / 2)%Qc, Fin 0%Qc, Fin (1 / 2)%Qc, Fin 1%Qc))) Sample.fresh
    = Ok (Some win)
    ∧ videoGravity <$> player_layer win = Some AVLayerVideoGravityResizeAspectFill
    ∧ videoGravity <$> daemon_player_layer
        (setupVideoPlayer (frame Sample.right_screen)
           {| video_path := Sample.sea; static_path := EmptyString; current_volume := 0%Qc;
              scale_mode := "stretch"; daemon_player := None;
              daemon_player_layer := None |})
      = Some AVLayerVideoGravityResize.
Proof.
  destruct (result (setupWithVideo_screen_volume_scaleMode_cropRect_
              Sample.two_displays init_window Sample.sea (Some Sample.right_screen)
              0%Qc "stretch"
              (Some (Fin (1 / 2)%Qc, Fin 0%Qc, Fin (1 / 2)%Qc, Fin 1%Qc))) Sample.fresh)
    as [[win|]|e] eqn:Hrun.
  - exists win. split; [reflexivity|].
    destruct (gravity_of_scale_mode Sample.two_displays init_window Sample.sea
                Sample.right_screen 0%Qc "stretch"
                (Fin (1 / 2)%Qc, Fin 0%Qc, Fin (1 / 2)%Qc, Fin 1%Qc) Sample.fresh win
                (frame Sample.right_screen)
                {| video_path := Sample.sea; static_path := EmptyString; current_volume := 0%Qc;
                   scale_mode := "stretch"; daemon_player := None;
                   daemon_player_layer := None |} Hrun) as (Hfill & Hdaemon & _).
    split; [exact Hfill|]. rewrite Hdaemon. reflexivity.
  - exfalso. vm_compute in Hrun. discriminate.
  - exfalso. vm_compute in Hrun. discriminate.
Defined.

(** ** Display indices out of range *)




(** * Further properties of the sources *)

(** ** The window factory, in full *)


(** ** The layer of a spanned window *)

(** X2: the layer frame of a spanned window is computed without raising for
    every crop rectangle: where a normalised extent is positive the window
    extent is divided by it, otherwise (zero, negative or NaN) the window
    extent is kept as it is; the offsets are the negated normalised origin
    times the resulting extent. *)
Theorem layer_frame_never_raises (window_width window_height x y cw ch : pyfloat) :
  ∃ offset_x offset_y canvas_width canvas_height,
    spanned_layer_frame window_width window_height (x, y, cw, ch)
      = Ok (offset_x, offset_y, canvas_width, canvas_height)
    ∧ (if flt zero cw then fdiv window_width cw = Ok canvas_width
       else canvas_width = window_width)
    ∧ (if flt zero ch then fdiv window_height ch = Ok canvas_height
       else canvas_height = window_height)
    ∧ offset_x = fmul (fneg x) canvas_width
    ∧ offset_y = fmul (fneg y) canvas_height.
Proof.
  assert (Hdiv : ∀ a b, flt zero b = true → ∃ c, fdiv a b = Ok c).
  { intros a b Hb. apply fdiv_nonzero. intros ->. cbn in Hb.
    apply bool_decide_eq_true in Hb. by apply Qclt_not_eq in Hb. }
  unfold spanned_layer_frame.
  destruct (flt zero cw) eqn:Hw; destruct (flt zero ch) eqn:Hh.
  - destruct (Hdiv window_width cw Hw) as [c1 H1].
    destruct (Hdiv window_height ch Hh) as [c2 H2]. rewrite H1, H2. eauto 10.
  - destruct (Hdiv window_width cw Hw) as [c1 H1]. rewrite H1. eauto 10.
  - destruct (Hdiv window_height ch Hh) as [c2 H2]. rewrite H2. eauto 10.
  - eauto 10.
Qed.



(** ** Crop rectangles stay inside the video *)



(** ** Stopping, in full *)

Lemma cleanup_windows_counts (i : nat) (todo : list SPVideoWallpaperWindow) (w : World) :
  ∃ ws tr,
    run (cleanup_windows i todo) w = (Ok tt, world_with ws tr w)
    ∧ length (filter is_close tr) = length (filter (λ s, is_Some (window s)) todo)
    ∧ length (filter is_pause tr) = length (filter (λ s, is_Some (player s)) todo)
    ∧ filter is_create_call tr = [] ∧ filter is_extract tr = [].
Proof.
  revert i w. induction todo as [|self rest IH]; intros i w.
  - exists (windows w), []. unfold world_with. rewrite app_nil_r. by destruct w.
  - cbn [cleanup_windows].
    destruct (cleanup_run self w) as (trc & Hrun & Htrc).
    rewrite run_bind, Hrun. cbv beta iota. step.
    set (w1 := set_windows _ _).
    destruct (IH (S i) w1) as (ws & tr & Hrest & Hclose & Hpause & Ht1 & Ht2).
    rewrite Hrest. exists ws, ((trc ++ [Log InfoCleanedUp]) ++ tr).
    split; [f_equal; unfold w1; world_eq|].
    rewrite !filter_app, !length_app, Hclose, Hpause, Ht1, Ht2, Htrc, !(filter_cons _ self).
    destruct self as [[win|] [pl|] [ly|] lo ts ci]; cbn;
      repeat case_decide; try done;
      try (exfalso; match goal with H : ¬ is_Some (Some _) |- _ => apply H; eauto end);
      try (exfalso; match goal with H : is_Some None |- _ => by destruct H end).
Qed.


(** ** The manager's start as a function of the request and the files *)

Lemma no_native_no_extract (tr : list Event) :
  filter is_native tr = [] → filter is_extract tr = [].
Proof.
  intros Hn. induction tr as [|e tr IH]; [done|].
  rewrite filter_cons in Hn. rewrite filter_cons.
  destruct e; cbn in *; try done; by apply IH.
Qed.

Lemma crop_on_ok (mnx mny cw ch : pyfloat) :
  cw ≠ zero → ch ≠ zero →
  ∀ fr, span_crop fr mnx mny cw ch = Ok (crop_on mnx mny cw ch fr).
Proof.
  intros Hw Hh fr. unfold crop_on, span_crop.
  destruct (fdiv_nonzero (fsub (Fin (origin_x fr)) mnx) cw Hw) as [c1 ->].
  destruct (fdiv_nonzero (fsub (Fin (origin_y fr)) mny) ch Hh) as [c2 ->].
  destruct (fdiv_nonzero (Fin (size_width fr)) cw Hw) as [c3 ->].
  destruct (fdiv_nonzero (Fin (size_height fr)) ch Hh) as [c4 ->].
  reflexivity.
Qed.

Lemma manager_start_det (pf : Platform) (video_paths : list string)
    (display_ids : list nat) (volume : Qc) (mode : string) (w : World) :
  ∃ tr,
    run (startWallpaperWithPaths_displayIDs_volume_scaleMode_ pf video_paths
           display_ids volume mode) w
      = ((manager_outcome pf (files w) video_paths display_ids volume mode).1,
         world_with (manager_outcome pf (files w) video_paths display_ids volume mode).2
           tr w)
    ∧ filter is_extract tr = [].
Proof.
  destruct (is_spanning video_paths) eqn:Hmode.
  - unfold manager_outcome. rewrite Hmode.
    unfold startWallpaperWithPaths_displayIDs_volume_scaleMode_.
    destruct (stopAllWallpapers_run w) as (trs & Hstop & _ & Hs2).
    rewrite run_bind, Hstop, Hmode. cbv beta iota.
    rewrite run_bind, run_log. cbv beta iota.
    destruct video_paths as [|first rest]; [discriminate|].
    set (w1 := add_events _ _).
    destruct (range_warnings_logs pf display_ids) as [_ Hr2].
    destruct (selected pf display_ids) as [|p0 sel0] eqn:Hsel.
    { rewrite (start_spanned_none _ _ _ _ _ _ Hsel).
      eexists (trs ++ [Log (InfoSpanning (length display_ids))]
                   ++ range_warnings pf display_ids ++ [Log ErrNoScreens]).
      split; [f_equal; unfold w1; world_eq|].
      rewrite !filter_app, Hs2, (no_native_no_extract _ Hr2). reflexivity. }
    assert (Hsome : selected pf display_ids ≠ []) by (by rewrite Hsel).
    case_decide as Hzero.
    + assert (Hraise : ∀ fr, span_crop fr (min_x (spanned_canvas pf display_ids))
                (min_y (spanned_canvas pf display_ids))
                (canvas_width_of (spanned_canvas pf display_ids))
                (canvas_height_of (spanned_canvas pf display_ids))
              = Raise ZeroDivisionError).
      { intros fr. destruct Hzero as [-> | ->]; apply span_crop_zero. }
      rewrite (start_spanned_raise _ _ _ _ _ _ Hsome Hraise).
      eexists (trs ++ [Log (InfoSpanning (length display_ids))]
                   ++ range_warnings pf display_ids ++ [_]).
      split; [f_equal; unfold w1; world_eq|].
      rewrite !filter_app, Hs2, (no_native_no_extract _ Hr2). reflexivity.
    + assert (Hw : canvas_width_of (spanned_canvas pf display_ids) ≠ zero)
        by (intros H0; apply Hzero; by left).
      assert (Hh : canvas_height_of (spanned_canvas pf display_ids) ≠ zero)
        by (intros H0; apply Hzero; by right).
      pose proof (crop_on_ok (min_x (spanned_canvas pf display_ids))
                    (min_y (spanned_canvas pf display_ids)) _ _ Hw Hh) as Hcrop.
      destruct (start_spanned_ok pf first display_ids volume mode _ w1 Hsome Hcrop)
        as (tr & Hrun & _ & Hnat).
      rewrite Hrun. rewrite Hsel in *.
      eexists (trs ++ [Log (InfoSpanning (length display_ids))] ++ tr).
      split; [f_equal; unfold w1; world_eq|].
      rewrite !filter_app, Hs2, (no_native_no_extract _ Hnat). reflexivity.
  - destruct (manager_start_individual pf video_paths display_ids volume mode w Hmode)
      as (tr & Hrun & _ & Hext & _).
    exists tr. split; [|exact Hext].
    unfold manager_outcome. rewrite Hmode. exact Hrun.
Qed.

Lemma create_outcome_full (pf : Platform) (fs : gset string) (video : string)
    (screen : option NSScreen) (volume : Qc) (mode : string) (crop : option CropRect)
    (win : SPVideoWallpaperWindow) :
  create_outcome pf fs video screen volume mode crop = Some win →
  video ∈ fs
  ∧ is_Some screen
  ∧ target_screen win = screen
  ∧ player win = Some {| item_path := video; player_volume := volume;
                         player_muted := false; player_playing := true |}
  ∧ is_Some (window win)
  ∧ is_Some (player_layer win)
  ∧ videoGravity <$> player_layer win = Some AVLayerVideoGravityResizeAspectFill
  ∧ crop_info win = Some crop.
Proof.
  unfold create_outcome, result,
    createWithVideo_screen_volume_scaleMode_cropRect_,
    setupWithVideo_screen_volume_scaleMode_cropRect_, bind, path_exists, gets,
    log, emit, modify, ret.
  cbn [files world_of_files add_event fst snd].
  case_bool_decide as Hin; cbn [negb]; [|discriminate].
  destruct screen as [scr|]; [|discriminate].
  destruct (native_fault pf video scr); [discriminate|].
  destruct crop as [c|].
  - destruct (spanned_layer_frame_total (Fin (size_width (frame scr)))
                (Fin (size_height (frame scr))) c) as [f ->].
    cbn. intros [= <-]. cbn. eauto 10.
  - cbn. intros [= <-]. cbn. eauto 10.
Qed.

(** X6: the manager's result and the session it leaves depend on the request
    and on the files on disk only, not on the session it replaces; so
    starting the same request twice in a row gives the result and the
    session of starting it once. *)
Theorem restart_gives_same_session (pf : Platform) (video_paths : list string)
    (display_ids : list nat) (volume : Qc) (mode : string) (w : World) :
  (∀ w', files w' = files w →
     result (startWallpaperWithPaths_displayIDs_volume_scaleMode_ pf video_paths
               display_ids volume mode) w'
       = result (startWallpaperWithPaths_displayIDs_volume_scaleMode_ pf video_paths
                   display_ids volume mode) w
     ∧ windows (final (startWallpaperWithPaths_displayIDs_volume_scaleMode_ pf
                         video_paths display_ids volume mode) w')
       = windows (final (startWallpaperWithPaths_displayIDs_volume_scaleMode_ pf
                           video_paths display_ids volume mode) w))
  ∧ result (start_twice pf video_paths display_ids volume mode) w
    = result (startWallpaperWithPaths_displayIDs_volume_scaleMode_ pf video_paths
                display_ids volume mode) w
  ∧ windows (final (start_twice pf video_paths display_ids volume mode) w)
    = windows (final (startWallpaperWithPaths_displayIDs_volume_scaleMode_ pf
                        video_paths display_ids volume mode) w).
Proof.
  assert (Hdep : ∀ w1 w2, files w1 = files w2 →
     result (startWallpaperWithPaths_displayIDs_volume_scaleMode_ pf video_paths
               display_ids volume mode) w1
       = result (startWallpaperWithPaths_displayIDs_volume_scaleMode_ pf video_paths
                   display_ids volume mode) w2
     ∧ windows (final (startWallpaperWithPaths_displayIDs_volume_scaleMode_ pf
                         video_paths display_ids volume mode) w1)
       = windows (final (startWallpaperWithPaths_displayIDs_volume_scaleMode_ pf
                           video_paths display_ids volume mode) w2)).
  { intros w1 w2 Hfiles.
    destruct (manager_start_det pf video_paths display_ids volume mode w1) as (t1 & H1 & _).
    destruct (manager_start_det pf video_paths display_ids volume mode w2) as (t2 & H2 & _).
    unfold result, final. unfold run in H1, H2. rewrite H1, H2, Hfiles. done. }
  split; [intros w' Hf; by apply Hdep|].
  destruct (manager_start_det pf video_paths display_ids volume mode w) as (t1 & H1 & _).
  unfold start_twice, result, final.
  change (bind ?m ?k w) with (run (bind m k) w).
  change (startWallpaperWithPaths_displayIDs_volume_scaleMode_ pf video_paths
            display_ids volume mode w)
    with (run (startWallpaperWithPaths_displayIDs_volume_scaleMode_ pf video_paths
                 display_ids volume mode) w).
  rewrite run_bind, H1.
  destruct (manager_outcome pf (files w) video_paths display_ids volume mode)
    as [[b|e] ws] eqn:Hout; cbn [fst snd]; [|done].
  destruct (manager_start_det pf video_paths display_ids volume mode (world_with ws t1 w))
    as (t2 & H2 & _).
  cbn [files world_with] in H2. rewrite H2, Hout. done.
Qed.

(** X7: when the manager's start returns, its result is [True] exactly when
    the session it leaves holds a window; when it raises, the session is
    empty. *)
Theorem success_flag_iff_session (pf : Platform) (video_paths : list string)
    (display_ids : list nat) (volume : Qc) (mode : string) (w : World) :
  match result (startWallpaperWithPaths_displayIDs_volume_scaleMode_ pf video_paths
                  display_ids volume mode) w with
  | Ok b =>
      b = true ↔
      windows (final (startWallpaperWithPaths_displayIDs_volume_scaleMode_ pf
                        video_paths display_ids volume mode) w) ≠ []
  | Raise _ =>
      windows (final (startWallpaperWithPaths_displayIDs_volume_scaleMode_ pf
                        video_paths display_ids volume mode) w) = []
  end.
Proof.
  destruct (manager_start_det pf video_paths display_ids volume mode w) as (tr & Hrun & _).
  unfold result, final. unfold run in Hrun. rewrite Hrun. cbn [fst snd windows world_with].
  unfold manager_outcome.
  assert (Hflag : ∀ ws : list SPVideoWallpaperWindow, (0 <? length ws) = true ↔ ws ≠ []).
  { intros [|x l]; cbn; [split; [discriminate|done]|split; [done|reflexivity]]. }
  destruct (is_spanning video_paths).
  - destruct video_paths as [|first rest]; [done|].
    destruct (selected pf display_ids) as [|p0 l0]; [cbn; split; [discriminate|done]|].
    case_decide; [done|]. apply Hflag.
  - apply Hflag.
Qed.


(** X9: every window of the session left by the manager's start is fully
    set up: it has an open window, a layer with the aspect-fill gravity and a
    screen, and its player plays, unmuted and at the requested volume, one
    of the requested videos, which is on disk. *)
Theorem session_windows_configured (pf : Platform) (video_paths : list string)
    (display_ids : list nat) (volume : Qc) (mode : string) (w : World) :
  Forall (λ win,
            is_Some (window win)
            ∧ is_Some (target_screen win)
            ∧ videoGravity <$> player_layer win = Some AVLayerVideoGravityResizeAspectFill
            ∧ ∃ video, video ∈ video_paths ∧ video ∈ files w
                       ∧ player win = Some {| item_path := video; player_volume := volume;
                                              player_muted := false;
                                              player_playing := true |})
    (windows (final (startWallpaperWithPaths_displayIDs_volume_scaleMode_ pf
                       video_paths display_ids volume mode) w)).
Proof.
  destruct (manager_start_det pf video_paths display_ids volume mode w) as (tr & Hrun & _).
  unfold final. unfold run in Hrun. rewrite Hrun. cbn [snd windows world_with].
  unfold manager_outcome.
  destruct (is_spanning video_paths) eqn:Hmode.
  - destruct video_paths as [|first rest]; [constructor|].
    destruct (selected pf display_ids) as [|p0 l0]; [constructor|].
    case_decide; [constructor|]. cbn [snd].
    apply Forall_forall. intros win Hwin. unfold spanned_windows in Hwin.
    apply list_elem_of_omap in Hwin as (p & _ & Hcreate).
    apply create_outcome_full in Hcreate
      as (Hin & Hscr & Hts & Hpl & Hw & _ & Hg & _).
    rewrite Hts. repeat split; try done.
    exists first. split; [by apply elem_of_cons; left|done].
  - cbn [snd]. apply Forall_forall. intros win Hwin. unfold individual_windows in Hwin.
    apply list_elem_of_omap in Hwin as ([v id] & Hp & Hcreate).
    apply create_outcome_full in Hcreate
      as (Hin & Hscr & Hts & Hpl & Hw & _ & Hg & _).
    rewrite Hts. repeat split; try done.
    exists v. split; [|done]. by apply elem_of_zip_l in Hp.
Qed.

(** X10: the manager does not compare the lengths of its two lists: in
    individual mode it calls the window factory once per position present in
    both, so the surplus entries of the longer list are ignored. *)
Theorem individual_start_truncates (pf : Platform) (video_paths : list string)
    (display_ids : list nat) (volume : Qc) (mode : string) (w : World) :
  is_spanning video_paths = false →
  ∃ r ws tr,
    run (startWallpaperWithPaths_displayIDs_volume_scaleMode_ pf video_paths
           display_ids volume mode) w = (Ok r, world_with ws tr w)
    ∧ length (filter is_create_call tr)
      = Nat.min (length video_paths) (length display_ids)
    ∧ length ws ≤ Nat.min (length video_paths) (length display_ids).
Proof.
  intros Hmode.
  destruct (manager_start_individual pf video_paths display_ids volume mode w Hmode)
    as (tr & Hrun & Hcalls & _).
  eexists _, _, tr. split; [exact Hrun|]. split.
  - by rewrite Hcalls, length_fmap, length_zip.
  - rewrite <- (length_zip video_paths display_ids). unfold individual_windows.
    generalize (zip video_paths display_ids). intros l.
    induction l as [|x l IH]; [done|]. cbn [omap list_omap].
    destruct (create_outcome _ _ _ _ _ _ _); cbn; lia.
Qed.

Lemma individual_start_truncates_witness :
  is_spanning [Sample.sea; Sample.sky] = false
  ∧ ∃ r ws tr,
      run (startWallpaperWithPaths_displayIDs_volume_scaleMode_ Sample.three_displays
             [Sample.sea; Sample.sky] [2; 1; 0] 0%Qc "fill") Sample.fresh
        = (Ok r, world_with ws tr Sample.fresh)
      ∧ length (filter is_create_call tr) = Nat.min 2 3
      ∧ length ws ≤ Nat.min 2 3.
Proof.
  split; [vm_compute; reflexivity|].
  apply (individual_start_truncates Sample.three_displays [Sample.sea; Sample.sky]
           [2; 1; 0] 0%Qc "fill" Sample.fresh).
  vm_compute. reflexivity.
Defined.

(** ** The engine's start, in full *)

Lemma get_or_generate_counts (pf : Platform) (video : string) (w : World) :
  ∃ r fs tr,
    run (get_or_generate_static_frame pf video) w = (Ok r, world_files fs tr w)
    ∧ files w ⊆ fs ∧ fs ⊆ files w ∪ {[static_path_of pf video]}
    ∧ filter is_create_call tr = []
    ∧ length (filter is_extract tr) ≤ 1.
Proof.
  destruct (decide (static_path_of pf video ∈ files w)) as [Hin|Hout].
  - rewrite (get_cached _ _ _ Hin). eexists _, (files w), _.
    split; [reflexivity|]. split; [done|]. split; [apply union_subseteq_l|].
    split; [reflexivity|]. vm_compute. lia.
  - unfold get_or_generate_static_frame, path_exists, generate_static_frame.
    fold (static_path_of pf video). step.
    rewrite bool_decide_eq_false_2 by done. step.
    destruct (frame_outcome pf video); step;
      try (eexists _, (files w), _; split; [reflexivity|];
           split; [done|]; split; [apply union_subseteq_l|];
           split; [reflexivity|]; vm_compute; lia).
    eexists _, ({[static_path_of pf video]} ∪ files w),
      [Log (InfoGenerating video); ExtractFrame video (static_path_of pf video);
       Log (InfoGenerated (static_path_of pf video))].
    split; [f_equal; world_eq|]. split; [apply union_subseteq_r|].
    split; [by rewrite (comm_L (∪))|]. split; [reflexivity|]. vm_compute. lia.
Qed.

Lemma static_frames_loop_files (pf : Platform) (video_paths : list string) (w : World) :
  ∃ b fs tr,
    run (static_frames_loop pf video_paths) w = (Ok b, world_files fs tr w)
    ∧ files w ⊆ fs ∧ fs ⊆ files w ∪ static_paths pf video_paths
    ∧ (Forall (λ v, v ∈ files w) video_paths → b = true)
    ∧ length (filter is_extract tr) ≤ length video_paths
    ∧ filter is_create_call tr = [].
Proof.
  revert w. induction video_paths as [|v rest IH]; intros w.
  - exists true, (files w), []. split.
    { f_equal. unfold world_files. rewrite app_nil_r. by destruct w. }
    split; [done|]. split; [apply union_subseteq_l|]. split; [done|]. split; done.
  - cbn [static_frames_loop]. unfold path_exists. step.
    case_bool_decide as Hv; cbn [negb].
    + destruct (get_or_generate_counts pf v w)
        as (r & fs1 & tr1 & Hget & Hsub & Hsup & Hc1 & He1).
      rewrite run_bind, Hget. cbv beta iota.
      destruct (IH (world_files fs1 tr1 w))
        as (b & fs & tr & Hrun & Hlo & Hhi & Hall & He & Hc).
      rewrite Hrun, world_files_world_files. cbn [files world_files] in *.
      exists b, fs, (tr1 ++ tr). split; [done|].
      split; [by etrans|]. split.
      { unfold static_paths in *. rewrite fmap_cons, list_to_set_cons.
        intros x Hx. apply Hhi in Hx. apply elem_of_union in Hx as [Hx|Hx].
        - apply Hsup in Hx. apply elem_of_union in Hx as [Hx|Hx].
          + apply elem_of_union; by left.
          + apply elem_of_union; right. apply elem_of_union; by left.
        - apply elem_of_union; right. apply elem_of_union; by right. }
      split.
      { intros Hex. apply Hall. apply Forall_cons in Hex as [_ Hex].
        eapply Forall_impl; [exact Hex|]. intros x Hx. by apply Hsub. }
      split; [rewrite filter_app, length_app, length_cons; lia|].
      by rewrite filter_app, Hc1, Hc.
    + step. exists false, (files w), [Log (ErrVideoNotFound v)].
      split; [reflexivity|]. split; [done|]. split; [apply union_subseteq_l|].
      split; [intros Hex; by apply Forall_cons in Hex as [? _]|].
      split; [vm_compute; lia|reflexivity].
Qed.

Lemma filter_extract_log (l : LogLine) : filter is_extract [Log l] = [].
Proof. reflexivity. Qed.

Lemma engine_start_run (pf : Platform) (video_paths : list string)
    (display_ids : list nat) (w : World) :
  ∃ r fs ws tr,
    run (start_video_wallpaper pf video_paths display_ids) w
      = (r, world_with ws tr (set_files fs w))
    ∧ files w ⊆ fs ∧ fs ⊆ files w ∪ static_paths pf video_paths
    ∧ length (filter is_extract tr) ≤ length video_paths
    ∧ ((r = Ok tt ∧ ws = windows w ∧ length video_paths ≠ length display_ids)
       ∨ (r = Ok tt ∧ ws = [] ∧ length video_paths = length display_ids
          ∧ ¬ Forall (λ v, v ∈ files w) video_paths)
       ∨ (length video_paths = length display_ids
          ∧ r = engine_result
                  (manager_outcome pf fs video_paths display_ids
                     (engine_volume pf) (engine_scale_mode pf)).1
          ∧ ws = (manager_outcome pf fs video_paths display_ids
                    (engine_volume pf) (engine_scale_mode pf)).2
          ∧ ∀ flag,
              (manager_outcome pf fs video_paths display_ids
                 (engine_volume pf) (engine_scale_mode pf)).1 = Ok flag →
              Log (if flag then InfoStarted (length display_ids)
                   else ErrFailedToStart) ∈ tr)).
Proof.
  unfold start_video_wallpaper.
  destruct (Nat.eqb_spec (length video_paths) (length display_ids)) as [Hlen|Hlen];
    cbn [negb].
  2: { exists (Ok tt), (files w), (windows w),
         [Log (ErrMismatch (length video_paths) (length display_ids))].
       step. split; [by destruct w|]. split; [done|].
       split; [apply union_subseteq_l|].
       split; [rewrite filter_extract_log; cbn; lia|]. by left. }
  fold (engine_volume pf). fold (engine_scale_mode pf).
  destruct (stop_video_wallpapers_run w) as (trs & Hstop & _ & Hs2).
  rewrite run_bind, Hstop. cbv beta iota.
  destruct (static_frames_loop_files pf video_paths (world_with [] trs w))
    as (b & fs & tr1 & Hrun & Hlo & Hhi & Hall & He & _).
  cbn [files world_with] in Hlo, Hhi, Hall.
  rewrite run_bind, Hrun. cbv beta iota.
  destruct b; cbn [negb].
  - destruct (manager_start_det pf video_paths display_ids (engine_volume pf)
                (engine_scale_mode pf) (world_files fs tr1 (world_with [] trs w)))
      as (tr2 & Hm & Hx2).
    cbn [files world_files] in Hm. rewrite run_bind, Hm.
    destruct (manager_outcome pf fs video_paths display_ids (engine_volume pf)
                (engine_scale_mode pf)) as [[flag|e] ws] eqn:Hout; cbn [fst snd].
    + exists (Ok tt), fs, ws,
        (trs ++ tr1 ++ tr2 ++ [Log (if flag then InfoStarted (length display_ids)
                                    else ErrFailedToStart)]).
      split; [destruct flag; step; f_equal; world_eq|]. split; [done|]. split; [done|].
      split; [rewrite !filter_app, !length_app, Hs2, Hx2, filter_extract_log; cbn; lia|].
      right; right. rewrite Hout. split; [done|]. split; [reflexivity|]. split; [reflexivity|].
      intros flag' [= <-]. rewrite !elem_of_app. do 3 right.
      by apply list_elem_of_singleton.
    + exists (Raise e), fs, ws, (trs ++ tr1 ++ tr2).
      split; [f_equal; world_eq|]. split; [done|]. split; [done|].
      split; [rewrite !filter_app, !length_app, Hs2, Hx2; cbn; lia|].
      right; right. rewrite Hout. split; [done|]. split; [reflexivity|]. split; [reflexivity|].
      intros flag' [=].
  - step. exists (Ok tt), fs, [], (trs ++ tr1).
    split; [f_equal; world_eq|]. split; [done|]. split; [done|].
    split; [rewrite !filter_app, !length_app, Hs2; cbn; lia|].
    right; left. split; [done|]. split; [done|]. split; [done|].
    intros Hex. by specialize (Hall Hex).
Qed.







(** ** The static frame cache, cold *)

(** X14: on a cold cache whose video yields a frame, the first call enters
    the frame extraction once, writes the cache entry and returns its path;
    the call that follows returns the same path from the cache: over the
    two calls the extraction is entered exactly once. *)
Theorem cold_cache_generates_once (pf : Platform) (video : string) (w : World) :
  static_path_of pf video ∉ files w →
  frame_outcome pf video = FrameWritten →
  ∃ tr,
    run (get_twice pf video) w
      = (Ok (static_path_of pf video, static_path_of pf video),
         world_files ({[static_path_of pf video]} ∪ files w) tr w)
    ∧ filter is_extract tr = [ExtractFrame video (static_path_of pf video)].
Proof.
  intros Hcold Hframe.
  exists [Log (InfoGenerating video); ExtractFrame video (static_path_of pf video);
          Log (InfoGenerated (static_path_of pf video));
          Log (InfoUsingCached (static_path_of pf video))].
  split; [|reflexivity].
  unfold get_twice. rewrite run_bind.
  unfold get_or_generate_static_frame at 1, path_exists, generate_static_frame.
  fold (static_path_of pf video). step.
  rewrite bool_decide_eq_false_2 by done. step. rewrite Hframe. step.
  rewrite get_cached.
  - cbv beta iota. step. f_equal. world_eq.
  - cbn [files set_files add_events]. apply elem_of_union; left.
    by apply elem_of_singleton.
Qed.

(** X15: a failed generation is not remembered: on a cold cache whose video
    yields no frame, the call returns the empty string and writes no file,
    and the call that follows enters the frame extraction again. *)
Theorem failed_generation_is_retried (pf : Platform) (video : string) (w : World) :
  static_path_of pf video ∉ files w →
  frame_outcome pf video ≠ FrameWritten →
  ∃ tr,
    run (get_twice pf video) w = (Ok (EmptyString, EmptyString), add_events tr w)
    ∧ filter is_extract tr
      = [ExtractFrame video (static_path_of pf video);
         ExtractFrame video (static_path_of pf video)].
Proof.
  intros Hcold Hframe.
  assert (Hone : ∀ w1, files w1 = files w →
            ∃ l, run (get_or_generate_static_frame pf video) w1
                 = (Ok EmptyString,
                    add_events [Log (InfoGenerating video);
                                ExtractFrame video (static_path_of pf video); Log l] w1)).
  { intros w1 Hfiles.
    unfold get_or_generate_static_frame, path_exists, generate_static_frame.
    fold (static_path_of pf video). step.
    rewrite Hfiles, bool_decide_eq_false_2 by done. step.
    destruct (frame_outcome pf video); try done; step; eexists; reflexivity. }
  destruct (Hone w eq_refl) as [l1 H1].
  destruct (Hone (add_events [Log (InfoGenerating video);
                              ExtractFrame video (static_path_of pf video); Log l1] w)
              eq_refl) as [l2 H2].
  eexists. unfold get_twice. rewrite run_bind, H1. cbv beta iota.
  rewrite run_bind, H2. cbv beta iota. step. split; reflexivity.
Qed.

Lemma cold_cache_generates_once_witness :
  (static_path_of Sample.two_displays Sample.sky ∉ files Sample.fresh)
  ∧ ∃ tr,
      run (get_twice Sample.two_displays Sample.sky) Sample.fresh
        = (Ok (static_path_of Sample.two_displays Sample.sky,
               static_path_of Sample.two_displays Sample.sky),
           world_files ({[static_path_of Sample.two_displays Sample.sky]}
                        ∪ files Sample.fresh) tr Sample.fresh)
      ∧ filter is_extract tr
        = [ExtractFrame Sample.sky (static_path_of Sample.two_displays Sample.sky)].
Proof.
  assert (Hcold : static_path_of Sample.two_displays Sample.sky ∉ files Sample.fresh).
  { apply (bool_decide_unpack _). vm_compute. exact I. }
  split; [exact Hcold|].
  apply (cold_cache_generates_once Sample.two_displays Sample.sky Sample.fresh
           Hcold eq_refl).
Defined.

Lemma failed_generation_is_retried_witness :
  (static_path_of Fixture.frameless Sample.sky ∉ files Sample.fresh)
  ∧ ∃ tr,
      run (get_twice Fixture.frameless Sample.sky) Sample.fresh
        = (Ok (EmptyString, EmptyString), add_events tr Sample.fresh)
      ∧ filter is_extract tr
        = [ExtractFrame Sample.sky (static_path_of Fixture.frameless Sample.sky);
           ExtractFrame Sample.sky (static_path_of Fixture.frameless Sample.sky)].
Proof.
  assert (Hcold : static_path_of Fixture.frameless Sample.sky ∉ files Sample.fresh).
  { apply (bool_decide_unpack _). vm_compute. exact I. }
  split; [exact Hcold|].
  apply (failed_generation_is_retried Fixture.frameless Sample.sky Sample.fresh Hcold).
  discriminate.
Defined.

(** ** The cache key *)

Lemma split_on_cons (sep c : ascii) (rest : string) :
  PyPath.split_on sep (String c rest)
  = if Ascii.eqb c sep then EmptyString :: PyPath.split_on sep rest
    else match PyPath.split_on sep rest with
         | [] => [String c EmptyString]
         | h :: t => String c h :: t
         end.
Proof. reflexivity. Qed.

Lemma split_on_nonempty (sep : ascii) (s : string) : PyPath.split_on sep s ≠ [].
Proof.
  destruct s as [|c s]; [done|]. rewrite split_on_cons.
  destruct (Ascii.eqb c sep); [done|]. by destruct (PyPath.split_on sep s).
Qed.

Lemma split_on_app (sep : ascii) (d n : string) :
  PyPath.split_on sep (d +:+ String sep n)
  = PyPath.split_on sep d ++ PyPath.split_on sep n.
Proof.
  induction d as [|c d IH].
  - change (EmptyString +:+ String sep n) with (String sep n).
    by rewrite split_on_cons, Ascii.eqb_refl.
  - change (String c d +:+ String sep n) with (String c (d +:+ String sep n)).
    rewrite !split_on_cons, IH.
    destruct (Ascii.eqb c sep); [done|].
    pose proof (split_on_nonempty sep d) as Hne.
    by destruct (PyPath.split_on sep d).
Qed.

Lemma split_on_no_slash (n : string) :
  has_slash n = false → PyPath.split_on PyPath.slash n = [n].
Proof.
  induction n as [|c n IH]; [done|]. intros Hn.
  change (has_slash (String c n)) with (Ascii.eqb c PyPath.slash || has_slash n) in Hn.
  apply orb_false_iff in Hn as [Hc Hn]. by rewrite split_on_cons, Hc, (IH Hn).
Qed.

Lemma name_ignores_directory (d n : string) :
  has_slash n = false → n ≠ EmptyString → n ≠ String PyPath.dot EmptyString →
  PyPath.name (d +:+ String PyPath.slash n) = n.
Proof.
  intros Hn Hne Hdot. unfold PyPath.name, PyPath.parts.
  rewrite split_on_app, (split_on_no_slash n Hn), filter_app.
  rewrite (filter_cons _ n), decide_True by done. rewrite filter_nil.
  by rewrite last_snoc.
Qed.

(** X16: the cache entry is named after the file name alone: two videos
    with the same file name in different directories have the same cache
    entry, so once the still frame of one of them is on disk, a request for
    the other returns that frame without entering the frame extraction. *)
Theorem cache_key_ignores_directory (pf : Platform) (dir1 dir2 n : string) (w : World) :
  has_slash n = false → n ≠ EmptyString → n ≠ String PyPath.dot EmptyString →
  static_path_of pf (dir1 +:+ String PyPath.slash n) ∈ files w →
  static_path_of pf (dir2 +:+ String PyPath.slash n)
    = static_path_of pf (dir1 +:+ String PyPath.slash n)
  ∧ run (get_or_generate_static_frame pf (dir2 +:+ String PyPath.slash n)) w
    = (Ok (static_path_of pf (dir1 +:+ String PyPath.slash n)),
       add_events [Log (InfoUsingCached
                          (static_path_of pf (dir1 +:+ String PyPath.slash n)))] w).
Proof.
  intros Hn Hne Hdot Hwarm.
  assert (Hsame : static_path_of pf (dir2 +:+ String PyPath.slash n)
                  = static_path_of pf (dir1 +:+ String PyPath.slash n)).
  { unfold static_path_of, PyPath.stem. by rewrite !name_ignores_directory. }
  split; [exact Hsame|]. rewrite <- Hsame. apply get_cached. by rewrite Hsame.
Qed.

Lemma cache_key_ignores_directory_witness :
  static_path_of Sample.two_displays
    ("/Users/u/Movies" +:+ String PyPath.slash "sea.mp4") ∈ files Sample.warm
  ∧ static_path_of Sample.two_displays ("/Volumes/usb" +:+ String PyPath.slash "sea.mp4")
    = static_path_of Sample.two_displays
        ("/Users/u/Movies" +:+ String PyPath.slash "sea.mp4")
  ∧ run (get_or_generate_static_frame Sample.two_displays
           ("/Volumes/usb" +:+ String PyPath.slash "sea.mp4")) Sample.warm
    = (Ok (static_path_of Sample.two_displays
             ("/Users/u/Movies" +:+ String PyPath.slash "sea.mp4")),
       add_events [Log (InfoUsingCached
                          (static_path_of Sample.two_displays
                             ("/Users/u/Movies" +:+ String PyPath.slash "sea.mp4")))]
         Sample.warm).
Proof.
  assert (Hwarm : static_path_of Sample.two_displays
            ("/Users/u/Movies" +:+ String PyPath.slash "sea.mp4") ∈ files Sample.warm).
  { apply (bool_decide_unpack _). vm_compute. exact I. }
  split; [exact Hwarm|].
  apply (cache_key_ignores_directory Sample.two_displays "/Users/u/Movies"
           "/Volumes/usb" "sea.mp4" Sample.warm eq_refl);
    [discriminate|discriminate|exact Hwarm].
Defined.

(** ** Killing twice *)

Lemma kill_all_daemons_run (pf : Platform) (w : World) :
  run (kill_all_daemons pf) w =
    (Ok tt,
     set_daemon_pids []
       (add_events
          (PostNotification "com.superpaper.video.terminate"
           :: (if notify_raises pf then [Log ErrTerminateNotification]
               else [Log InfoSentTerminate])
           ++ (daemon_pids w ≫= kill_trace pf)) w)).
Proof.
  unfold kill_all_daemons, send_terminate_notification. step.
  destruct (notify_raises pf); step; rewrite kill_pids_run; step; reflexivity.
Qed.

(** X17: [kill_all_daemons] forgets the pids it has signalled: called a
    second time it posts the terminate notification again but sends no
    signal to any process. *)
Theorem second_kill_signals_nobody (pf : Platform) (w : World) :
  ∃ tr,
    run (kill_twice pf) w = (Ok tt, set_daemon_pids [] (add_events tr w))
    ∧ filter is_signal tr
      = PostNotification "com.superpaper.video.terminate"
        :: (Kill <$> daemon_pids w)
        ++ [PostNotification "com.superpaper.video.terminate"].
Proof.
  unfold kill_twice. rewrite run_bind, kill_all_daemons_run. cbv beta iota.
  rewrite kill_all_daemons_run. cbn [daemon_pids set_daemon_pids mbind list_bind].
  eexists. split.
  - f_equal. unfold set_daemon_pids, add_events. cbn. f_equal.
    rewrite <- app_assoc. reflexivity.
  - rewrite app_nil_r, filter_app, filter_cons. cbn [is_signal].
    rewrite decide_True by done.
    rewrite filter_app, kill_trace_signals.
    destruct (notify_raises pf); reflexivity.
Qed.

(** ** Destroying what the factory built *)



(** ** The daemon's screen *)

Lemma find_screen_by_number_spec (display_id : nat) (scrs : list NSScreen) :
  match find_screen_by_number display_id scrs with
  | Some screen =>
      ∃ i, scrs !! i = Some screen ∧ screen_number screen = display_id
           ∧ ∀ j other, j < i → scrs !! j = Some other →
                        screen_number other ≠ display_id
  | None => ∀ other, other ∈ scrs → screen_number other ≠ display_id
  end.
Proof.
  induction scrs as [|s rest IH]; cbn [find_screen_by_number].
  - intros other Hin. by apply elem_of_nil in Hin.
  - destruct (Nat.eqb_spec (screen_number s) display_id) as [Heq|Hne].
    + exists 0. split; [done|]. split; [done|]. intros j other Hj. lia.
    + destruct (find_screen_by_number display_id rest) as [found|].
      * destruct IH as (i & Hi & Hnum & Hfirst). exists (S i).
        split; [done|]. split; [done|]. intros [|j] other Hj Hother.
        -- by injection Hother as <-.
        -- apply (Hfirst j other); [lia|done].
      * intros other [->|Hin]%elem_of_cons; [done|by apply IH].
Qed.

(** X19: the daemon looks its screen up by [NSScreenNumber], not by
    position: its target is the first screen, in enumeration order, whose
    number equals the display id it was given, and the main screen exactly
    when no screen has that number. *)
Theorem daemon_screen_by_number (pf : Platform) (display_id : nat) :
  (∃ i screen,
     screens pf !! i = Some screen
     ∧ screen_number screen = display_id
     ∧ (∀ j other, j < i → screens pf !! j = Some other →
                   screen_number other ≠ display_id)
     ∧ daemon_target_screen pf display_id = Some screen)
  ∨ ((∀ other, other ∈ screens pf → screen_number other ≠ display_id)
     ∧ daemon_target_screen pf display_id = mainScreen pf).
Proof.
  unfold daemon_target_screen.
  pose proof (find_screen_by_number_spec display_id (screens pf)) as Hspec.
  destruct (find_screen_by_number display_id (screens pf)) as [screen|].
  - left. destruct Hspec as (i & Hi & Hnum & Hfirst). exists i, screen. done.
  - right. done.
Qed.

(** ** The empty request *)

(** X20: an empty request is not an error for the arity check but starts
    nothing: the engine stops the old session, the manager calls the window
    factory for nothing and reports failure, and the engine logs that it
    failed to start; the session is left empty. *)
Theorem empty_request_starts_nothing (pf : Platform) (display_ids : list nat)
    (volume : Qc) (mode : string) (w : World) :
  (∃ tr,
     run (startWallpaperWithPaths_displayIDs_volume_scaleMode_ pf [] display_ids
            volume mode) w = (Ok false, world_with [] tr w)
     ∧ filter is_create_call tr = [])
  ∧ result (start_video_wallpaper pf [] []) w = Ok tt
  ∧ windows (final (start_video_wallpaper pf [] []) w) = []
  ∧ Log ErrFailedToStart ∈ events (final (start_video_wallpaper pf [] []) w).
Proof.
  assert (Hmode : is_spanning [] = false) by (vm_compute; reflexivity).
  split.
  - destruct (manager_start_individual pf [] display_ids volume mode w Hmode)
      as (tr & Hrun & Hcalls & _).
    exists tr. split; [exact Hrun|exact Hcalls].
  - destruct (engine_start_run pf [] [] w)
      as (r & fs & ws & tr & Hrun & _ & _ & _ & Hcases).
    unfold result, final. unfold run in Hrun. rewrite Hrun.
    cbn [fst snd windows events world_with set_files].
    destruct Hcases as [(_ & _ & Hbad)|[(_ & _ & _ & Hbad)|(_ & Hr & Hws & Hlog)]].
    + done.
    + exfalso. apply Hbad. constructor.
    + unfold manager_outcome in Hr, Hws, Hlog. rewrite Hmode in Hr, Hws, Hlog.
      cbn in Hr, Hws, Hlog. subst r ws. split; [done|]. split; [done|].
      apply elem_of_app; right. by apply (Hlog false).
Qed.

(** ** The spanned start, end to end *)





(** ** Stopping again, and stopping what was started *)



Lemma manager_session_open (pf : Platform) (fs : gset string)
    (video_paths : list string) (display_ids : list nat) (volume : Qc) (mode : string) :
  Forall (λ win, is_Some (window win) ∧ is_Some (player win))
    (manager_outcome pf fs video_paths display_ids volume mode).2.
Proof.
  unfold manager_outcome.
  destruct (is_spanning video_paths).
  - destruct video_paths as [|first rest]; [constructor|].
    destruct (selected pf display_ids) as [|p0 l0]; [constructor|].
    case_decide; [constructor|]. cbn [snd].
    apply Forall_forall. intros win Hwin. unfold spanned_windows in Hwin.
    apply list_elem_of_omap in Hwin as (p & _ & Hcreate).
    apply create_outcome_full in Hcreate as (_ & _ & _ & Hpl & Hw & _).
    rewrite Hpl. eauto.
  - cbn [snd]. apply Forall_forall. intros win Hwin. unfold individual_windows in Hwin.
    apply list_elem_of_omap in Hwin as (p & _ & Hcreate).
    apply create_outcome_full in Hcreate as (_ & _ & _ & Hpl & Hw & _).
    rewrite Hpl. eauto.
Qed.

Lemma filter_Forall_length {A} (P : A → Prop) `{∀ x, Decision (P x)} (l : list A) :
  Forall P l → length (filter P l) = length l.
Proof.
  intros HP. induction HP as [|x l Hx _ IH]; [done|].
  rewrite filter_cons, decide_True by done. cbn. by rewrite IH.
Qed.

Lemma filter_log_singleton (P : Event → bool) (l : LogLine) :
  P (Log l) = false → filter P [Log l] = [].
Proof.
  intros Hlog. rewrite filter_cons, decide_False; [done|].
  intros Htrue. rewrite Hlog in Htrue. exact Htrue.
Qed.

(** X23: stopping right after a start of the manager that returned closes
    every window of the new session and pauses every player, each exactly
    once, and leaves the session empty. *)
Theorem stop_closes_what_start_opened (pf : Platform) (video_paths : list string)
    (display_ids : list nat) (volume : Qc) (mode : string) (w : World) (b : bool) :
  result (startWallpaperWithPaths_displayIDs_volume_scaleMode_ pf video_paths
            display_ids volume mode) w = Ok b →
  ∃ tr_start tr_stop,
    run (start_then_stop pf video_paths display_ids volume mode) w
      = (Ok tt, world_with [] (tr_start ++ tr_stop) w)
    ∧ events (final (startWallpaperWithPaths_displayIDs_volume_scaleMode_ pf
                       video_paths display_ids volume mode) w)
      = events w ++ tr_start
    ∧ length (filter is_close tr_stop)
      = length (windows (final (startWallpaperWithPaths_displayIDs_volume_scaleMode_
                                  pf video_paths display_ids volume mode) w))
    ∧ length (filter is_pause tr_stop)
      = length (windows (final (startWallpaperWithPaths_displayIDs_volume_scaleMode_
                                  pf video_paths display_ids volume mode) w)).
Proof.
  intros Hok.
  destruct (manager_start_det pf video_paths display_ids volume mode w) as (t1 & H1 & _).
  pose proof (manager_session_open pf (files w) video_paths display_ids volume mode)
    as Hopen.
  pose proof H1 as H1'. unfold run in H1'.
  unfold result in Hok. rewrite H1' in Hok. cbn [fst] in Hok.
  unfold final. rewrite H1'. cbn [snd windows events world_with].
  unfold start_then_stop. rewrite run_bind, H1, Hok. cbv beta iota.
  set (ws := (manager_outcome pf (files w) video_paths display_ids volume mode).2) in *.
  unfold stopAllWallpapers. rewrite run_bind, run_gets. cbv beta iota.
  cbn [windows world_with].
  destruct (cleanup_windows_counts 0 ws (world_with ws t1 w))
    as (ws' & tr & Hrun & Hclose & Hpause & _).
  rewrite run_bind, Hrun. cbv beta iota. step.
  exists t1, (tr ++ [Log InfoAllStopped]).
  split; [f_equal; world_eq|]. split; [reflexivity|].
  rewrite !filter_app, !length_app, Hclose, Hpause.
  rewrite !(filter_log_singleton _ InfoAllStopped) by reflexivity.
  rewrite (filter_Forall_length (λ s, is_Some (window s)))
    by (eapply Forall_impl; [exact Hopen|]; by intros x [? ?]).
  rewrite (filter_Forall_length (λ s, is_Some (player s)))
    by (eapply Forall_impl; [exact Hopen|]; by intros x [? ?]).
  cbn [length]. rewrite !Nat.add_0_r. done.
Qed.

Lemma stop_closes_what_start_opened_witness :
  ∃ tr_start tr_stop,
    run (start_then_stop Sample.three_displays [Sample.sea; Sample.sky; Sample.gone]
           [0; 1; 2] 0%Qc "fill") Sample.fresh
      = (Ok tt, world_with [] (tr_start ++ tr_stop) Sample.fresh)
    ∧ events (final (startWallpaperWithPaths_displayIDs_volume_scaleMode_
                       Sample.three_displays [Sample.sea; Sample.sky; Sample.gone]
                       [0; 1; 2] 0%Qc "fill") Sample.fresh)
      = events Sample.fresh ++ tr_start
    ∧ length (filter is_close tr_stop)
      = length (windows (final (startWallpaperWithPaths_displayIDs_volume_scaleMode_
                                  Sample.three_displays
                                  [Sample.sea; Sample.sky; Sample.gone] [0; 1; 2]
                                  0%Qc "fill") Sample.fresh))
    ∧ length (filter is_pause tr_stop)
      = length (windows (final (startWallpaperWithPaths_displayIDs_volume_scaleMode_
                                  Sample.three_displays
                                  [Sample.sea; Sample.sky; Sample.gone] [0; 1; 2]
                                  0%Qc "fill") Sample.fresh)).
Proof.
  apply (stop_closes_what_start_opened Sample.three_displays
           [Sample.sea; Sample.sky; Sample.gone] [0; 1; 2] 0%Qc "fill" Sample.fresh true).
  vm_compute. reflexivity.
Defined.
